(** * Sales-report pipeline: the execution tool, the connection provider
      and the two-stage crew

    A shallow embedding of
    - [custom_tool_vendas.py]  ([ExecutePythonCodeTool._run]),
    - [db_config.py]           ([get_db_connection_params]),
    - [crew_sales_report.py]   ([SalesReportCrew._setup_crew], [kickoff],
                                and the loading of the module),
    with the part of the Python runtime these functions rest on: objects
    and [str()], exceptions and [try]/[except], the resolution of global
    names, [dict.get], [exec] with separate globals and locals, long string
    literals, [os.getenv], [all], and with crewai's sequential process. *)

From Stdlib Require Import ZArith String Ascii List Bool Lia.
From stdpp Require Import base option gmap strings list pretty.

Open Scope string_scope.
Open Scope list_scope.

(** ** Text *)

Definition dquote : string := String "034" EmptyString.

(** The line feed. *)
Definition LF : string := String "010" EmptyString.

(** Lines joined by line feeds, as a literal that spans several lines. *)
Definition unlines (ls : list string) : string := String.concat LF ls.

(** [needle in s] *)
Definition contains (s needle : string) : Prop :=
  ∃ before after : string, s = before +:+ needle +:+ after.

(** [s.startswith(p)] *)
Definition startswith (s p : string) : bool := String.prefix p s.

(** ** Python objects, exceptions and [str()] *)

Module Py.

(** An exception instance, as far as the code observes it: the name of its
    class ([type(e).__name__]), whether the class derives from [Exception]
    (and not only from [BaseException], as [SystemExit], [KeyboardInterrupt]
    and [GeneratorExit] do), and what rendering it as text does: a class may
    define [__str__], which returns a string or raises in its turn.  (In an
    f-string [{e}] is [format(e, '')], which is [str(e)] unless the class
    also defines [__format__]; the third field is the outcome of the
    rendering the code at hand asks for.) *)
Inductive pyexc : Type :=
| PyExc (cls : string) (derives_Exception : bool) (str_ : str_outcome)
with str_outcome : Type :=
| StrReturns (s : string)
| StrRaises (e : pyexc).

Definition type_name (e : pyexc) : string :=
  match e with PyExc cls _ _ => cls end.

Definition isinstance_Exception (e : pyexc) : bool :=
  match e with PyExc _ d _ => d end.

Definition exc_str (e : pyexc) : str_outcome :=
  match e with PyExc _ _ r => r end.

(** The values a namespace holds: [None], an [int], a [str], or an instance
    of any other class, given by its type's name and by what [str()] does on
    it (plain data: such an instance is neither callable nor an
    exception). *)
Inductive pyobj : Type :=
| PyNone
| PyInt (z : Z)
| PyStr (s : string)
| PyObject (type_name : string) (str_ : str_outcome).

(** Builtin exceptions with the message [msg] as their single argument. *)
Definition ValueError (msg : string) : pyexc := PyExc "ValueError" true (StrReturns msg).
Definition TypeError (msg : string) : pyexc := PyExc "TypeError" true (StrReturns msg).
Definition NameError (msg : string) : pyexc := PyExc "NameError" true (StrReturns msg).
Definition SyntaxError (msg : string) : pyexc := PyExc "SyntaxError" true (StrReturns msg).

(** CPython refuses to convert an [int] of more than
    [sys.get_int_max_str_digits()] digits (4300 unless reconfigured). *)
Definition int_max_str_digits : nat := 4300.

Definition int_str_limit_message : string :=
  "Exceeds the limit (4300 digits) for integer string conversion; use sys.set_int_max_str_digits() to increase the limit".

(** [str(o)] *)
Definition py_str (o : pyobj) : str_outcome :=
  match o with
  | PyNone => StrReturns "None"
  | PyInt z =>
      if (String.length (pretty (Z.abs z)) <=? int_max_str_digits)%nat
      then StrReturns (pretty z)
      else StrRaises (ValueError int_str_limit_message)
  | PyStr s => StrReturns s
  | PyObject _ r => r
  end.

(** A namespace is a [dict] from names to objects. *)
Abbreviation namespace := (gmap string pyobj).

(** [d.get(key, default)] *)
Definition dict_get (d : namespace) (key : string) (default_ : pyobj) : pyobj :=
  match d !! key with
  | Some v => v
  | None => default_
  end.

(** [type(v).__name__] *)
Definition type_of (v : pyobj) : string :=
  match v with
  | PyNone => "NoneType"
  | PyInt _ => "int"
  | PyStr _ => "str"
  | PyObject tn _ => tn
  end.

(** What the use of a name that is bound nowhere raises. *)
Definition not_defined (x : string) : pyexc :=
  NameError ("name '" +:+ x +:+ "' is not defined").

(** *** Effects

    A computation runs against the state [W] of the interpreter: the
    globals of the module (what [globals()] returns, a dictionary shared by
    every call made in the module), the builtins, every object reachable
    from them.  It either finishes with a value, raises, or never finishes;
    the state survives in the first two cases. *)
Inductive outcome (W A : Type) : Type :=
| Done (a : A) (w : W)
| Raised (e : pyexc) (w : W)
| Diverged.
Arguments Done {W A} a w.
Arguments Raised {W A} e w.
Arguments Diverged {W A}.

Definition M (W A : Type) : Type := W → outcome W A.

Definition ret {W A} (a : A) : M W A := λ w, Done a w.

Definition bind {W A B} (m : M W A) (k : A → M W B) : M W B :=
  λ w, match m w with
       | Done a w' => k a w'
       | Raised e w' => Raised e w'
       | Diverged => Diverged
       end.

Definition raise {W A} (e : pyexc) : M W A := λ w, Raised e w.

#[global] Instance M_ret {W} : MRet (M W) := @ret W.
#[global] Instance M_bind {W} : MBind (M W) := λ A B k m, bind m k.

(** [try: body  except <class> as e: handler e].  The expression after
    [except] is evaluated when the body has raised, against the exception
    raised: [matches e] is that evaluation and the test.  Whatever it
    raises, and whatever the handler raises, leaves the statement; an
    exception that does not match passes through. *)
Definition try_except {W A} (body : M W A) (matches : pyexc → M W bool)
    (handler : pyexc → M W A) : M W A :=
  λ w, match body w with
       | Raised e w' =>
           match matches e w' with
           | Done true w'' => handler e w''
           | Done false w'' => Raised e w''
           | Raised e' w'' => Raised e' w''
           | Diverged => Diverged
           end
       | o => o
       end.

(** A rendering without effect on the state, as a computation. *)
Definition of_str_outcome {W} (r : str_outcome) : M W string :=
  match r with
  | StrReturns s => ret s
  | StrRaises e => raise e
  end.

(** An error that [except Exception] catches and whose message renders. *)
Definition catchable (e : pyexc) : Prop :=
  isinstance_Exception e = true ∧ ∃ msg, exc_str e = StrReturns msg.

End Py.

(** ** custom_tool_vendas.py: the execution tool *)

Module ExecutionTool.
Import Py.

(** The tool's [name] and [description]. *)
Definition name : string := "Ferramenta de execução de código Python".
Definition description : string :=
  "Executa um bloco de código Python fornecido como uma string e retorna o valor da variável 'resultado'.".

(** The default of [local_namespace.get('resultado', ...)]. *)
Definition sentinel : string :=
  "Nenhum resultado capturado. A variável " +:+ dquote +:+ "resultado" +:+ dquote
  +:+ " não foi definida no código executado.".

Definition error_prefix : string := "Erro ao executar o código Python: ".

(** *** The names [_run] looks up

    [_run] names [exec], [globals], [str], [Exception] and [type].  None is
    a local of the method: each is looked up, when it is evaluated, in the
    globals of the module and then in the builtins.  The executed text is
    given these very globals (and can reach the builtins), so that it can
    change what each name denotes, for the rest of the call and for the
    calls that follow. *)
Inductive denotation : Type :=
| Builtin            (** what the builtins bind the name to at start-up *)
| Data (v : pyobj)   (** [None], an [int], a [str], an instance: plain data *)
| Unbound            (** nothing: the name is bound nowhere any more *)
| Opaque.            (** anything else: a function, a class, ... *)

(** The Python runtime, as far as [_run] depends on it. *)
Record Runtime (W : Type) : Type := {
  (** [exec python_code locals]: the builtin [exec] on the text, the
      globals of the module and [locals]; the result is the local namespace
      the text leaves behind *)
  exec : string → namespace → M W namespace;
  (** what a global name of [_run] denotes in a state *)
  lookup : string → W → denotation;
  (** the builtin [str] on an instance: it runs the [__str__] of the
      instance's class *)
  str_instance : pyobj → M W string;
  (** [format(e, '')], what [{e}] in an f-string evaluates *)
  format_exception : pyexc → M W string;
  (** [exec(python_code, globals(), locals)] when [exec] or [globals]
      denotes something opaque *)
  exec_opaque : string → namespace → M W namespace;
  (** the call [x(o)] when [x] denotes something opaque *)
  call_opaque : string → pyobj → M W pyobj;
  (** whether [except Exception] matches when [Exception] denotes something
      opaque *)
  except_opaque : pyexc → M W bool;
  (** [type(e).__name__] when [type] denotes something opaque *)
  type_name_opaque : pyexc → M W string
}.
Arguments exec {W} _ _ _ _.
Arguments lookup {W} _ _ _.
Arguments str_instance {W} _ _ _.
Arguments format_exception {W} _ _ _.
Arguments exec_opaque {W} _ _ _ _.
Arguments call_opaque {W} _ _ _ _.
Arguments except_opaque {W} _ _ _.
Arguments type_name_opaque {W} _ _ _.

(** Calling plain data, and naming it after [except]. *)
Definition not_callable (v : pyobj) : pyexc :=
  TypeError ("'" +:+ type_of v +:+ "' object is not callable").

Definition not_an_exception_class : pyexc :=
  TypeError "catching classes that do not inherit from BaseException is not allowed".

Section Run.

Context {W : Type} (py : Runtime W).

(** The builtin [str]. *)
Definition builtin_str (o : pyobj) : M W string :=
  match o with
  | PyObject _ _ => str_instance py o
  | _ => of_str_outcome (py_str o)
  end.

(** [exec(python_code, globals(), local_namespace)]: the name [exec] is
    looked up first, then [globals], which is called, then [exec] is
    called. *)
Definition call_exec (python_code : string) (local_namespace : namespace)
    : M W namespace :=
  λ w, match lookup py "exec" w, lookup py "globals" w with
       | Unbound, _ => Raised (not_defined "exec") w
       | _, Unbound => Raised (not_defined "globals") w
       | Builtin, Builtin => exec py python_code local_namespace w
       | _, Data v => Raised (not_callable v) w
       | Data v, Builtin => Raised (not_callable v) w
       | _, _ => exec_opaque py python_code local_namespace w
       end.

(** [str(resultado)] *)
Definition call_str (resultado : pyobj) : M W pyobj :=
  λ w, match lookup py "str" w with
       | Builtin => (s ← builtin_str resultado; mret (PyStr s)) w
       | Data v => Raised (not_callable v) w
       | Unbound => Raised (not_defined "str") w
       | Opaque => call_opaque py "str" resultado w
       end.

(** [except Exception], against the exception [e] raised. *)
Definition except_Exception (e : pyexc) : M W bool :=
  λ w, match lookup py "Exception" w with
       | Builtin => Done (isinstance_Exception e) w
       | Data _ => Raised not_an_exception_class w
       | Unbound => Raised (not_defined "Exception") w
       | Opaque => except_opaque py e w
       end.

(** [type(e).__name__] *)
Definition type_name_of (e : pyexc) : M W string :=
  λ w, match lookup py "type" w with
       | Builtin => Done (type_name e) w
       | Data v => Raised (not_callable v) w
       | Unbound => Raised (not_defined "type") w
       | Opaque => type_name_opaque py e w
       end.

(** The body of the [except] clause:
    [return f"Erro ao executar o código Python: {type(e).__name__}: {e}"] *)
Definition report (e : pyexc) : M W pyobj :=
  cls ← type_name_of e;
  msg ← format_exception py e;
  mret (PyStr (error_prefix +:+ cls +:+ ": " +:+ msg)).

Definition _run (python_code : string) : M W pyobj :=
  let local_namespace : namespace := ∅ in
  try_except
    (l ← call_exec python_code local_namespace;
     let resultado := dict_get l "resultado" (PyStr sentinel) in
     call_str resultado)
    except_Exception
    report.

(** [exec] and [globals] denote the builtins: the call of [exec] takes
    place. *)
Definition can_exec (w : W) : Prop :=
  lookup py "exec" w = Builtin ∧ lookup py "globals" w = Builtin.

(** [Exception] and [type] denote the builtins, the error derives from
    [Exception] and its rendering returns: the [except] clause takes the
    error and returns. *)
Definition reported (e : pyexc) (w : W) : Prop :=
  lookup py "Exception" w = Builtin
  ∧ isinstance_Exception e = true
  ∧ lookup py "type" w = Builtin
  ∧ ∃ msg w', format_exception py e w = Done msg w'.

End Run.

End ExecutionTool.

(** ** A fragment of Python, to run program texts

    To evaluate [_run] on program texts, this module interprets the
    following line-oriented fragment of Python,

      line ::= blank | pass | TARGET = expr | global TARGET | del TARGET
             | raise CLASS | raise CLASS('text') | while True: pass
      expr ::= INT (+ INT)* | 'text' | None | NAME

    with the name resolution of code run by [exec] with separate globals and
    locals: a name not declared [global] is stored in and deleted from the
    locals, and read from the locals, then the globals; a name declared
    [global] lives in the globals.  What Python does on a text outside the
    fragment is not described here: it is left to the runtime the fragment
    extends. *)

Module MiniPython.
Import Py.

(** *** Lexical structure *)

Definition code_of (c : ascii) : N := N_of_ascii c.

Definition is_lower (c : ascii) : bool := (97 <=? code_of c)%N && (code_of c <=? 122)%N.
Definition is_upper (c : ascii) : bool := (65 <=? code_of c)%N && (code_of c <=? 90)%N.
Definition is_digit (c : ascii) : bool := (48 <=? code_of c)%N && (code_of c <=? 57)%N.
Definition is_space (c : ascii) : bool := (code_of c =? 32)%N.
Definition is_quote (c : ascii) : bool := (code_of c =? 39)%N.
Definition is_backslash (c : ascii) : bool := (code_of c =? 92)%N.
Definition is_underscore (c : ascii) : bool := (code_of c =? 95)%N.
Definition is_name_start (c : ascii) : bool := is_lower c || is_upper c || is_underscore c.
Definition is_name_char (c : ascii) : bool := is_name_start c || is_digit c.
(** The characters of a string literal of the fragment: printable ASCII
    other than the quote and the backslash. *)
Definition is_text_char (c : ascii) : bool :=
  (32 <=? code_of c)%N && (code_of c <=? 126)%N
  && negb ((code_of c =? 39)%N || (code_of c =? 92)%N).
(** [=], [+], [(], [)], [:] *)
Definition is_punct (c : ascii) : bool :=
  (code_of c =? 61)%N || (code_of c =? 43)%N || (code_of c =? 40)%N
  || (code_of c =? 41)%N || (code_of c =? 58)%N.

Inductive token : Type :=
| TName (x : string)
| TInt (digits : string)
| TStr (s : string)
| TPunct (c : ascii).

Inductive lex_state : Type :=
| Idle
| InName (acc : string)
| InInt (acc : string)
| InStr (acc : string).

Definition snoc (s : string) (c : ascii) : string := s +:+ String c EmptyString.

(** What a character starts when no token is open. *)
Definition from_idle (c : ascii) : option (lex_state * list token) :=
  if is_space c then Some (Idle, [])
  else if is_name_start c then Some (InName (String c EmptyString), [])
  else if is_digit c then Some (InInt (String c EmptyString), [])
  else if is_quote c then Some (InStr EmptyString, [])
  else if is_punct c then Some (Idle, [TPunct c])
  else None.

Fixpoint lex (st : lex_state) (s : string) : option (list token) :=
  match s with
  | EmptyString =>
      match st with
      | Idle => Some []
      | InName a => Some [TName a]
      | InInt a => Some [TInt a]
      | InStr _ => None
      end
  | String c s' =>
      match st with
      | Idle =>
          '(st', ts) ← from_idle c; rest ← lex st' s'; Some (ts ++ rest)
      | InName a =>
          if is_name_char c then lex (InName (snoc a c)) s'
          else '(st', ts) ← from_idle c; rest ← lex st' s'; Some (TName a :: ts ++ rest)
      | InInt a =>
          if is_digit c then lex (InInt (snoc a c)) s'
          else if is_name_start c || (code_of c =? 46)%N then None
          else '(st', ts) ← from_idle c; rest ← lex st' s'; Some (TInt a :: ts ++ rest)
      | InStr a =>
          if is_quote c then rest ← lex Idle s'; Some (TStr a :: rest)
          else if is_text_char c then lex (InStr (snoc a c)) s'
          else None
      end
  end.

(** The value of a decimal literal: [0], or digits without a leading zero,
    at most [int_max_str_digits] of them. *)
Fixpoint digits_value (acc : Z) (s : string) : Z :=
  match s with
  | EmptyString => acc
  | String c s' => digits_value (10 * acc + (Z.of_N (code_of c) - 48)) s'
  end.

Definition int_literal (digits : string) : option Z :=
  match digits with
  | EmptyString => None
  | String c rest =>
      if (code_of c =? 48)%N && negb (String.eqb rest EmptyString) then None
      else if (String.length digits <=? int_max_str_digits)%nat
           then Some (digits_value 0 digits) else None
  end.

Definition keywords : list string :=
  ["False"; "None"; "True"; "and"; "as"; "assert"; "async"; "await"; "break";
   "class"; "continue"; "def"; "del"; "elif"; "else"; "except"; "finally";
   "for"; "from"; "global"; "if"; "import"; "in"; "is"; "lambda"; "nonlocal";
   "not"; "or"; "pass"; "raise"; "return"; "try"; "while"; "with"; "yield"].

(** The names the [builtins] module binds that begin with a lower-case
    letter. *)
Definition lowercase_builtins : list string :=
  ["abs"; "aiter"; "all"; "anext"; "any"; "ascii"; "bin"; "bool"; "breakpoint";
   "bytearray"; "bytes"; "callable"; "chr"; "classmethod"; "compile"; "complex";
   "copyright"; "credits"; "delattr"; "dict"; "dir"; "divmod"; "enumerate";
   "eval"; "exec"; "exit"; "filter"; "float"; "format"; "frozenset"; "getattr";
   "globals"; "hasattr"; "hash"; "help"; "hex"; "id"; "input"; "int";
   "isinstance"; "issubclass"; "iter"; "len"; "license"; "list"; "locals"; "map";
   "max"; "memoryview"; "min"; "next"; "object"; "oct"; "open"; "ord"; "pow";
   "print"; "property"; "quit"; "range"; "repr"; "reversed"; "round"; "set";
   "setattr"; "slice"; "sorted"; "staticmethod"; "str"; "sum"; "super"; "tuple";
   "type"; "vars"; "zip"].

Definition mem (x : string) (l : list string) : bool := existsb (String.eqb x) l.

(** The names the fragment reads: they begin with a lower-case letter and
    are neither a keyword nor a builtin, so that they resolve in the locals
    and the globals only. *)
Definition is_identifier (x : string) : bool :=
  match x with
  | EmptyString => false
  | String c _ => is_lower c && negb (mem x keywords) && negb (mem x lowercase_builtins)
  end.

(** The builtin exception classes of the fragment, each with whether it
    derives from [Exception].  None of them overrides [__str__]. *)
Definition builtin_exceptions : list (string * bool) :=
  [("BaseException", false); ("SystemExit", false); ("KeyboardInterrupt", false);
   ("GeneratorExit", false); ("Exception", true); ("ValueError", true);
   ("TypeError", true); ("RuntimeError", true); ("ArithmeticError", true);
   ("ZeroDivisionError", true); ("AssertionError", true)].

Fixpoint assoc {A} (x : string) (l : list (string * A)) : option A :=
  match l with
  | [] => None
  | (y, a) :: l' => if String.eqb x y then Some a else assoc x l'
  end.

(** The names the fragment binds, declares [global] and deletes: those it
    reads, the other names in lower case that are no keyword, and the
    builtin exception classes above.  None of them is bound in the globals
    of the module when it is imported. *)
Definition is_target (x : string) : bool :=
  match x with
  | EmptyString => false
  | String c _ =>
      is_lower c && negb (mem x keywords)
      || match assoc x builtin_exceptions with Some _ => true | None => false end
  end.

(** *** Syntax *)

Inductive expr : Type :=
| ENone
| ESum (first : Z) (rest : list Z)
| EStr (s : string)
| EName (x : string).

Inductive stmt : Type :=
| SPass
| SAssign (x : string) (e : expr)
| SGlobal (x : string)
| SDel (x : string)
| SRaise (cls : string) (arg : option string)
| SWhileTruePass.

Fixpoint parse_summands (ts : list token) : option (list Z) :=
  match ts with
  | [] => Some []
  | TPunct c :: TInt d :: ts' =>
      if (code_of c =? 43)%N
      then z ← int_literal d; zs ← parse_summands ts'; Some (z :: zs)
      else None
  | _ => None
  end.

Definition parse_expr (ts : list token) : option expr :=
  match ts with
  | [TStr s] => Some (EStr s)
  | [TName x] =>
      if String.eqb x "None" then Some ENone
      else if is_identifier x then Some (EName x) else None
  | TInt d :: ts' => z ← int_literal d; zs ← parse_summands ts'; Some (ESum z zs)
  | _ => None
  end.

Definition is_punct_token (t : token) (n : N) : bool :=
  match t with TPunct c => (code_of c =? n)%N | _ => false end.

Definition is_exception_name (x : string) : bool :=
  match assoc x builtin_exceptions with Some _ => true | None => is_identifier x end.

(** A logical line, already lexed; [None] for a blank line. *)
Definition parse_tokens (ts : list token) : option (option stmt) :=
  match ts with
  | [] => Some None
  | [TName "pass"] => Some (Some SPass)
  | [TName "global"; TName x] =>
      if is_target x then Some (Some (SGlobal x)) else None
  | [TName "del"; TName x] =>
      if is_target x then Some (Some (SDel x)) else None
  | [TName "raise"; TName c] =>
      if is_exception_name c then Some (Some (SRaise c None)) else None
  | [TName "raise"; TName c; lp; TStr msg; rp] =>
      if is_exception_name c && is_punct_token lp 40 && is_punct_token rp 41
      then Some (Some (SRaise c (Some msg))) else None
  | [TName "while"; TName "True"; colon; TName "pass"] =>
      if is_punct_token colon 58 then Some (Some SWhileTruePass) else None
  | TName x :: eq :: ts' =>
      if is_target x && is_punct_token eq 61
      then e ← parse_expr ts'; Some (Some (SAssign x e)) else None
  | _ => None
  end.

Definition is_blank (s : string) : bool :=
  forallb is_space (list_ascii_of_string s).

(** A physical line: a statement must start in the first column. *)
Definition parse_line (line : string) : option (option stmt) :=
  if is_blank line then Some None
  else match line with
       | String c _ => if is_space c then None else lex Idle line ≫= parse_tokens
       | EmptyString => Some None
       end.

(** Split at line feeds. *)
Fixpoint lines (cur : string) (s : string) : list string :=
  match s with
  | EmptyString => [cur]
  | String c s' =>
      if (code_of c =? 10)%N then cur :: lines EmptyString s'
      else lines (snoc cur c) s'
  end.

Fixpoint parse_lines (ls : list string) : option (list stmt) :=
  match ls with
  | [] => Some []
  | l :: ls' =>
      o ← parse_line l; p ← parse_lines ls';
      Some (match o with Some s => s :: p | None => p end)
  end.

(** The names a statement reads, binds or deletes. *)
Definition names_of (s : stmt) : list string :=
  match s with
  | SAssign x (EName y) => [x; y]
  | SAssign x _ => [x]
  | SDel x => [x]
  | SRaise c _ => [c]
  | SGlobal _ | SPass | SWhileTruePass => []
  end.

(** A [global] declaration must precede every use of its name in the
    block; the compiler rejects the block otherwise. *)
Fixpoint globals_precede_uses (seen : list string) (p : list stmt) : bool :=
  match p with
  | [] => true
  | SGlobal x :: p' => negb (mem x seen) && globals_precede_uses seen p'
  | s :: p' => globals_precede_uses (names_of s ++ seen) p'
  end.

Definition global_names (p : list stmt) : list string :=
  flat_map (λ s, match s with SGlobal x => [x] | _ => [] end) p.

Definition parse (python_code : string) : option (list stmt) :=
  p ← parse_lines (lines EmptyString python_code);
  if globals_precede_uses [] p then Some p else None.

(** *** Execution *)

(** The state is the globals of the module: the texts of the fragment
    reach nothing else. *)
Abbreviation G := (M namespace).

Definition get_globals : G namespace := λ g, Done g g.
Definition set_globals (g' : namespace) : G unit := λ _, Done () g'.

(** Where a name is found: in the globals alone when it is declared
    [global], in the locals and then the globals otherwise.  (The builtins
    come last: the fragment reads no name of theirs but the exception
    classes it raises.) *)
Definition lookup_name (gl : list string) (x : string) (l g : namespace) : option pyobj :=
  if mem x gl then g !! x
  else match l !! x with
       | Some v => Some v
       | None => g !! x
       end.

Definition load_name (gl : list string) (x : string) (l : namespace) : G pyobj :=
  g ← get_globals;
  match lookup_name gl x l g with
  | Some v => mret v
  | None => raise (not_defined x)
  end.

Definition eval (gl : list string) (e : expr) (l : namespace) : G pyobj :=
  match e with
  | ENone => mret PyNone
  | ESum z zs => mret (PyInt (fold_left Z.add zs z))
  | EStr s => mret (PyStr s)
  | EName x => load_name gl x l
  end.

(** [raise c] and [raise c('text')].  The objects of this model are plain
    data: a name bound to one of them is neither an exception class nor
    callable. *)
Definition raise_stmt (gl : list string) (c : string) (arg : option string)
    (l : namespace) : G namespace :=
  g ← get_globals;
  match lookup_name gl c l g with
  | Some v =>
      match arg with
      | None => raise (TypeError "exceptions must derive from BaseException")
      | Some _ => raise (ExecutionTool.not_callable v)
      end
  | None =>
      match assoc c builtin_exceptions with
      | Some derives =>
          raise (PyExc c derives (StrReturns (match arg with Some m => m | None => "" end)))
      | None => raise (not_defined c)
      end
  end.

Definition exec_stmt (gl : list string) (s : stmt) (l : namespace) : G namespace :=
  match s with
  | SPass | SGlobal _ => mret l
  | SAssign x e =>
      v ← eval gl e l;
      if mem x gl
      then g ← get_globals; _ ← set_globals (<[x := v]> g); mret l
      else mret (<[x := v]> l)
  | SDel x =>
      if mem x gl
      then g ← get_globals;
           match g !! x with
           | Some _ => _ ← set_globals (delete x g); mret l
           | None => raise (not_defined x)
           end
      else match l !! x with
           | Some _ => mret (delete x l)
           | None => raise (not_defined x)
           end
  | SRaise c arg => raise_stmt gl c arg l
  | SWhileTruePass => λ _, Diverged
  end.

Fixpoint exec_block (gl : list string) (p : list stmt) (l : namespace) : G namespace :=
  match p with
  | [] => mret l
  | s :: p' => l' ← exec_stmt gl s l; exec_block gl p' l'
  end.

(** *** The runtime of the fragment

    The fragment extends a runtime [beyond], which stands for what Python
    does on every other text.  A global name of [_run] denotes what the
    globals bind it to, and the builtin otherwise: the texts of the fragment
    bind names to plain data only, and do not reach the builtins.  The
    objects of the fragment are rendered without effect on the state. *)
Section Fragment.

Variable beyond : ExecutionTool.Runtime namespace.

(** [exec(python_code, globals(), locals)] *)
Definition exec (python_code : string) (locals : namespace) : G namespace :=
  match parse python_code with
  | Some p => exec_block (global_names p) p locals
  | None => ExecutionTool.exec beyond python_code locals
  end.

Definition lookup (x : string) (g : namespace) : ExecutionTool.denotation :=
  match g !! x with
  | Some v => ExecutionTool.Data v
  | None => ExecutionTool.Builtin
  end.

Definition runtime : ExecutionTool.Runtime namespace :=
  {| ExecutionTool.exec := exec;
     ExecutionTool.lookup := lookup;
     ExecutionTool.str_instance := λ o, of_str_outcome (py_str o);
     ExecutionTool.format_exception := λ e, of_str_outcome (exc_str e);
     ExecutionTool.exec_opaque := ExecutionTool.exec_opaque beyond;
     ExecutionTool.call_opaque := ExecutionTool.call_opaque beyond;
     ExecutionTool.except_opaque := ExecutionTool.except_opaque beyond;
     ExecutionTool.type_name_opaque := ExecutionTool.type_name_opaque beyond |}.

(** The execution tool over this runtime. *)
Definition run (python_code : string) : G pyobj :=
  ExecutionTool._run runtime python_code.

End Fragment.

(** A text of the fragment that declares no name [global]. *)
Definition declares_no_global (p : list stmt) : bool :=
  forallb (λ s, match s with SGlobal _ => false | _ => true end) p.

(** The state a call leaves behind, when it comes back. *)
Definition state_after {W A} (o : outcome W A) : option W :=
  match o with
  | Done _ w | Raised _ w => Some w
  | Diverged => None
  end.

(** The globals of [custom_tool_vendas] once imported, as far as [pyobj]
    represents them.  The other names of the module ([BaseTool],
    [ExecutePythonCodeTool], its other double-underscore names) are bound to
    classes and modules; like [__name__], none is a name the fragment reads
    or binds, and none is a name [_run] looks up. *)
Definition module_globals : namespace :=
  {[ "__name__" := PyStr "custom_tool_vendas" ]}.

(** *** Sample runtimes beyond the fragment

    [silent] answers nothing: a call it is asked for never returns.  The
    samples that extend it alone run texts of the fragment, in states in
    which no name denotes an opaque object, so that it is never asked.  On
    a text outside the fragment, [binds v] binds [resultado] to [v] and
    ends, as Python does on a text that assigns to it an instance of a class
    of its own, and [raises e] raises [e], as Python does on a text that
    raises an instance of a class of its own. *)
Definition silent : ExecutionTool.Runtime namespace :=
  {| ExecutionTool.exec := λ _ _ _, Diverged;
     ExecutionTool.lookup := lookup;
     ExecutionTool.str_instance := λ _ _, Diverged;
     ExecutionTool.format_exception := λ _ _, Diverged;
     ExecutionTool.exec_opaque := λ _ _ _, Diverged;
     ExecutionTool.call_opaque := λ _ _ _, Diverged;
     ExecutionTool.except_opaque := λ _ _, Diverged;
     ExecutionTool.type_name_opaque := λ _ _, Diverged |}.

Definition binds (v : pyobj) : ExecutionTool.Runtime namespace :=
  {| ExecutionTool.exec := λ _ locals, ret (<["resultado" := v]> locals);
     ExecutionTool.lookup := lookup;
     ExecutionTool.str_instance := ExecutionTool.str_instance silent;
     ExecutionTool.format_exception := ExecutionTool.format_exception silent;
     ExecutionTool.exec_opaque := ExecutionTool.exec_opaque silent;
     ExecutionTool.call_opaque := ExecutionTool.call_opaque silent;
     ExecutionTool.except_opaque := ExecutionTool.except_opaque silent;
     ExecutionTool.type_name_opaque := ExecutionTool.type_name_opaque silent |}.

Definition raises (e : pyexc) : ExecutionTool.Runtime namespace :=
  {| ExecutionTool.exec := λ _ _, raise e;
     ExecutionTool.lookup := lookup;
     ExecutionTool.str_instance := ExecutionTool.str_instance silent;
     ExecutionTool.format_exception := ExecutionTool.format_exception silent;
     ExecutionTool.exec_opaque := ExecutionTool.exec_opaque silent;
     ExecutionTool.call_opaque := ExecutionTool.call_opaque silent;
     ExecutionTool.except_opaque := ExecutionTool.except_opaque silent;
     ExecutionTool.type_name_opaque := ExecutionTool.type_name_opaque silent |}.

End MiniPython.

(** ** db_config.py: the connection parameters *)

Module DbConfig.

(** [os.environ], after [load_dotenv()] has run at import. *)
Abbreviation environ := (gmap string string).

(** [os.getenv(key)]: the value, or [None] when the variable is unset. *)
Definition getenv (env : environ) (key : string) : option string := env !! key.

(** Truth value of a [str] or [None]: [None] and the empty string are
    false. *)
Definition truthy (v : option string) : bool :=
  match v with
  | Some s => negb (String.eqb s EmptyString)
  | None => false
  end.

(** [d.values()] *)
Definition values (d : gmap string (option string)) : list (option string) :=
  (map_to_list d).*2.

(** [all(vs)] *)
Definition all (vs : list (option string)) : bool := forallb truthy vs.

Definition warning : string :=
  "Warning: Not all database connection parameters are set in .env file.".

(** [print(line)] appends a line to the standard output. *)
Definition print (line : string) (stdout : list string) : list string :=
  stdout ++ [line].

Definition get_db_connection_params (env : environ) (stdout : list string)
    : gmap string (option string) * list string :=
  let params : gmap string (option string) :=
    <["database" := getenv env "DB_NAME"]>
      (<["password" := getenv env "DB_PASSWORD"]>
         (<["user" := getenv env "DB_USER"]>
            (<["host" := getenv env "DB_HOST"]> ∅))) in
  let stdout := if negb (all (values params)) then print warning stdout else stdout in
  (params, stdout).

End DbConfig.

(** ** The crewai objects the crew is built from

    [Agent], [Task] and [Crew] carry the fields [crew_sales_report.py] sets.
    A task is an object: the [context] of a task and the [tasks] of a crew
    hold references to it, and running it stores its [output] in the object
    itself.  [kickoff] with [Process.sequential] runs the crew's tasks in
    the order of the list, one after the other.  The language model behind
    an agent and the substitution of the inputs into the texts belong to
    the library and its remote service: they are the parameters
    [agent_execute] and [interpolate] of this model. *)

Module CrewAI.

Record Agent : Type := {
  role : string;
  goal : string;
  backstory : string;
  memory : bool;
  verbose : bool;
  llm : string
}.

Record Tool : Type := {
  tool_name : string;
  tool_description : string
}.

Definition task_ref : Type := nat.

Record Task : Type := {
  description : string;
  expected_output : string;
  agent : Agent;
  tools : list Tool;
  (** [None]: not specified *)
  context : option (list task_ref);
  (** [None] until the task has run *)
  output : option string
}.

Inductive Process : Type := sequential | hierarchical.

Record Crew : Type := {
  agents : list Agent;
  tasks : list task_ref;
  process : Process
}.

(** The task objects, and the number of agent calls made so far (two calls
    with the same arguments need not answer alike). *)
Record state : Type := {
  heap : gmap task_ref Task;
  calls : nat
}.

Inductive event : Type :=
| TaskStarted (t : task_ref) (context : list string)
| TaskCompleted (t : task_ref) (raw : string)
| TaskFailed (t : task_ref).

Definition set_output (task : Task) (raw : string) : Task :=
  {| description := description task;
     expected_output := expected_output task;
     agent := agent task;
     tools := tools task;
     context := context task;
     output := Some raw |}.

(** A task as configured, whatever output it holds. *)
Definition clear_output (task : Task) : Task :=
  {| description := description task;
     expected_output := expected_output task;
     agent := agent task;
     tools := tools task;
     context := context task;
     output := None |}.

Definition configuration (h : gmap task_ref Task) : gmap task_ref Task :=
  clear_output <$> h.

Section Runtime.

(** [interpolate text inputs]: [text] with the inputs substituted. *)
Variable interpolate : string → list (string * string) → string.

(** [agent_execute n agent description expected_output tools context]:
    the raw answer of the [n]-th agent call, or [None] when the call
    raises (the service fails). *)
Variable agent_execute :
  nat → Agent → string → string → list Tool → list string → option string.

Definition interpolate_agent (a : Agent) (inputs : list (string * string)) : Agent :=
  {| role := interpolate (role a) inputs;
     goal := interpolate (goal a) inputs;
     backstory := interpolate (backstory a) inputs;
     memory := memory a;
     verbose := verbose a;
     llm := llm a |}.

(** The raw outputs of the tasks a task names as its context, or of all
    the tasks run before it when it names none. *)
Definition _get_context (h : gmap task_ref Task) (task : Task)
    (task_outputs : list string) : list string :=
  match context task with
  | Some refs => omap (λ r, h !! r ≫= output) refs
  | None => task_outputs
  end.

Fixpoint _execute_tasks (ts : list task_ref) (inputs : list (string * string))
    (st : state) (task_outputs : list string)
    : state * list event * option (list string) :=
  match ts with
  | [] => (st, [], Some task_outputs)
  | t :: ts' =>
      match heap st !! t with
      | None => (st, [], None)
      | Some task =>
          let ctx := _get_context (heap st) task task_outputs in
          match agent_execute (calls st)
                  (interpolate_agent (agent task) inputs)
                  (interpolate (description task) inputs)
                  (interpolate (expected_output task) inputs)
                  (tools task) ctx with
          | None =>
              ({| heap := heap st; calls := S (calls st) |},
               [TaskStarted t ctx; TaskFailed t], None)
          | Some raw =>
              let st' := {| heap := <[t := set_output task raw]> (heap st);
                            calls := S (calls st) |} in
              let '(st'', evs, r) :=
                _execute_tasks ts' inputs st' (task_outputs ++ [raw]) in
              (st'', TaskStarted t ctx :: TaskCompleted t raw :: evs, r)
          end
      end
  end.

(** [crew.kickoff(inputs=...)]: the final state, the events of this
    call, and [result.raw], the raw output of the last task; [None] when
    the call raises.  A hierarchical crew needs a manager, which [Crew]
    here does not have. *)
Definition kickoff (c : Crew) (inputs : list (string * string)) (st : state)
    : state * list event * option string :=
  match process c with
  | sequential =>
      let '(st', evs, r) := _execute_tasks (tasks c) inputs st [] in
      (st', evs, r ≫= last)
  | hierarchical => (st, [], None)
  end.

End Runtime.

End CrewAI.

(** ** crew_sales_report.py: the crew *)

Module SalesReport.
Import CrewAI.

(** *** The texts of the agents and tasks *)

(** [role] of [analista_dados] *)
Definition analista_dados_role : string :=
  "Analista de Dados".

(** [goal] of [analista_dados] *)
Definition analista_dados_goal : string :=
  "Criar scripts Python concisos para interagir com um banco de dados MariaDB (usando `mysql.connector` e `db_config.get_db_connection_params()`) para extrair e processar informações da tabela 'vendas', com base na solicitação do usuário. O script deve atribuir o resultado final (uma string ou representação de string dos dados) a uma variável chamada `resultado`.".

(** [backstory] of [analista_dados] *)
Definition analista_dados_backstory : string :=
  "Você é um programador Python experiente, especialista em automação de tarefas de dados e interação com bancos de dados SQL. Você é proficiente em escrever scripts Python que usam `mysql.connector` para se conectar a MariaDB, buscar detalhes de conexão de `db_config.get_db_connection_params()`, executar consultas SQL e processar os resultados. Seus scripts são limpos, eficientes e sempre definem uma variável `resultado` com a saída final.".

(** [role] of [redator] *)
Definition redator_role : string :=
  "Redator".

(** [goal] of [redator] *)
Definition redator_goal : string :=
  "Escrever um parágrafo baseado no contexto fornecido pelo Analista de Dados e pela solicitação {query}.".

(** [backstory] of [redator] *)
Definition redator_backstory : string :=
  unlines
    ["Você é um escritor habilidoso, capaz de transformar dados técnicos e análises ";
     "                em textos claros e cativantes, sempre mantendo um tom formal e direcionado ao chefe."].

(** [expected_output] of [task_python_db_query] *)
Definition task_python_db_query_expected_output : string :=
  "Um script Python que atenda à solicitação {query} e atribua o resultado a uma variável 'resultado'.".

(** [description] of [write_task] *)
Definition write_task_description : string :=
  unlines
    ["";
     "                    Use o contexto fornecido pela pesquisa do agente 'analista_dados' para escrever um parágrafo";
     "                    que responda à solicitação em {query}. O texto deve sempre começar com 'Oi Chefe' e explicar";
     "                    a resposta da maneira mais clara e informativa possível. quando for escrever algum número de valores ";
     "                    em reais, escreva por extenso.";
     "                    "].

(** [expected_output] of [write_task] *)
Definition write_task_expected_output : string :=
  "Um parágrafo começando com 'Oi Chefe', explicando a resposta à solicitação {query}.".

(** The text between the parentheses of [description=( ... )] of
    [task_python_db_query]: lines 63 to 133 of the file. *)
Definition task_python_db_query_description_source : string :=
  unlines
    [("                " +:+ dquote +:+ "" +:+ dquote +:+ "" +:+ dquote +:+ "");
     "                Dada a solicitação do usuário delimitada por <query>, crie um script Python para consultar a tabela 'vendas' em um banco de dados MariaDB.";
     "";
     "                O script Python gerado DEVE:";
     "                1. Importar `mysql.connector` e `get_db_connection_params` from `db_config`. Podem ser importados outros módulos como `pandas` se for util.";
     "                2. Chamar `db_params = get_db_connection_params()` para obter os detalhes da conexão.";
     "                3. Verificar se todos os `db_params` foram carregados (host, user, password, database). Se não, definir `resultado` como uma mensagem de erro apropriada.";
     ("                4. Estabelecer uma conexão com o banco de dados MariaDB usando `mysql.connector.connect(" +:+ "**db_params)`.");
     "                5. Construir a consulta SQL necessária para atender à <query> do usuário. A tabela 'vendas' tem as colunas: `Data da Venda`, `ID da Venda`, `ID do Cliente`, `Nome do Cliente`, `Produto`, `ID do Produto`, `Categoria`, `Preço Unitário`, `Quantidade`, `Valor Total`, `Meio de Pagamento`, `Vendedor`, `Região`, `Status da Venda`.";
     "                6. Executar a consulta SQL.";
     "                7. Buscar os resultados (por exemplo, para uma lista de tuplas ou um DataFrame pandas se a análise for complexa).";
     "                8. Formatar os resultados em uma string clara e concisa.";
     "                9. **Atribuir esta string final à variável `resultado`**. Esta variável é o que será retornado pela ferramenta.";
     "                10. Incluir tratamento de erros (blocos try/except) para operações de banco de dados e outras partes do script. Em caso de erro, `resultado` deve conter uma mensagem de erro descritiva.";
     "                11. Fechar o cursor e a conexão do banco de dados em um bloco `finally`.";
     "                12. Usar `LIMIT` nas consultas SQL para restringir a saída a um máximo de 20 resultados, a menos que a <query> peça explicitamente por todos os dados ou um número diferente.";
     "";
     "                <query>";
     "                {query}";
     "                </query>";
     "";
     "                <exemplo_solicitacao>";
     "                Qual foi o produto mais vendido em termos de quantidade?";
     "                </exemplo_solicitacao>";
     "";
     "                <exemplo_codigo_python>";
     "                import mysql.connector";
     "                from db_config import get_db_connection_params";
     "                import pandas as pd # Opcional, mas pode ser útil";
     "";
     ("                resultado = " +:+ dquote +:+ "" +:+ dquote +:+ "");
     "                cnx = None";
     "                cursor = None";
     "                try:";
     "                    db_params = get_db_connection_params()";
     "                    if not all(db_params.get(key) for key in ['host', 'user', 'password', 'database']):";
     ("                        resultado = " +:+ dquote +:+ "Erro: Parâmetros de conexão com o banco de dados não configurados completamente no .env." +:+ dquote +:+ "");
     "                    else:";
     ("                        cnx = mysql.connector.connect(" +:+ "**db_params)");
     "                        cursor = cnx.cursor()";
     "                        ";
     ("                        query = " +:+ dquote +:+ "" +:+ dquote +:+ "" +:+ dquote +:+ "");
     "                        SELECT Produto, SUM(Quantidade) AS TotalQuantidade";
     "                        FROM vendas";
     "                        GROUP BY Produto";
     "                        ORDER BY TotalQuantidade DESC";
     "                        LIMIT 1;";
     ("                        " +:+ dquote +:+ "" +:+ dquote +:+ "" +:+ dquote +:+ "");
     "                        cursor.execute(query)";
     "                        data = cursor.fetchall()";
     "";
     "                        if data:";
     "                            # Exemplo de formatação do resultado";
     "                            df = pd.DataFrame(data, columns=[i[0] for i in cursor.description])";
     ("                            resultado = f" +:+ dquote +:+ "O produto mais vendido em quantidade foi: {df.iloc[0]['Produto']} com {df.iloc[0]['TotalQuantidade']} unidades." +:+ dquote +:+ "");
     "                        else:";
     ("                            resultado = " +:+ dquote +:+ "Nenhum produto encontrado." +:+ dquote +:+ "");
     "                    ";
     "                except mysql.connector.Error as err:";
     ("                    resultado = f" +:+ dquote +:+ "Erro de banco de dados: {err}" +:+ dquote +:+ "");
     "                except Exception as e:";
     ("                    resultado = f" +:+ dquote +:+ "Ocorreu um erro inesperado: {e}" +:+ dquote +:+ "");
     "                finally:";
     "                    if cursor is not None:";
     "                        cursor.close()";
     "                    if cnx is not None and cnx.is_connected():";
     "                        cnx.close()";
     "                </exemplo_codigo_python>";
     "";
     "                Certifique-se de que seu script Python esteja completo, correto e atribua a saída final à variável `resultado`.";
     ("                " +:+ dquote +:+ "" +:+ dquote +:+ "" +:+ dquote +:+ "")].

(** *** Loading the module

    [description=( ... )] of [task_python_db_query] is a parenthesised
    group of string literals opened by three double quotes.  Such a literal
    ends at the next three double quotes that no backslash escapes;
    between the parentheses line ends are white space, adjacent literals
    are concatenated, and a name that is no keyword cannot follow a
    literal. *)

Definition is_dquote (c : ascii) : bool := (MiniPython.code_of c =? 34)%N.
Definition is_newline (c : ascii) : bool := (MiniPython.code_of c =? 10)%N.

(** The body of a literal whose opening quotes have been read, and the
    text after its closing quotes; [None] when it is not closed. *)
Fixpoint long_string (s : string) : option (string * string) :=
  match s with
  | EmptyString => None
  | String c s' =>
      if MiniPython.is_backslash c then
        match s' with
        | String d s'' =>
            '(body, rest) ← long_string s''; Some (String c (String d body), rest)
        | EmptyString => None
        end
      else
        match s' with
        | String c2 (String c3 rest) =>
            if is_dquote c && is_dquote c2 && is_dquote c3 then Some (EmptyString, rest)
            else '(body, rest') ← long_string s'; Some (String c body, rest')
        | _ => '(body, rest') ← long_string s'; Some (String c body, rest')
        end
  end.

(** The name a text starts with. *)
Fixpoint take_name (s : string) : string :=
  match s with
  | String c s' => if MiniPython.is_name_char c then String c (take_name s') else EmptyString
  | EmptyString => EmptyString
  end.

Inductive string_group_result : Type :=
| Literal (value : string)
| UnexpectedName (x : string)
| Unsupported.

(** The value of a group of literals; [UnexpectedName x] when the name [x]
    follows a literal, which is a syntax error; [Unsupported] for any other
    text. *)
Fixpoint string_group (fuel : nat) (acc : option string) (s : string)
    : string_group_result :=
  match fuel with
  | O => Unsupported
  | S fuel' =>
      match s with
      | EmptyString =>
          match acc with Some v => Literal v | None => Unsupported end
      | String c s' =>
          if MiniPython.is_space c || is_newline c then string_group fuel' acc s'
          else if is_dquote c then
            match s' with
            | String c2 (String c3 s3) =>
                if is_dquote c2 && is_dquote c3 then
                  match long_string s3 with
                  | Some (body, rest) =>
                      string_group fuel'
                        (Some (match acc with Some v => v +:+ body | None => body end)) rest
                  | None => Unsupported
                  end
                else Unsupported
            | _ => Unsupported
            end
          else if MiniPython.is_name_start c then
            let x := take_name s in
            match acc with
            | Some _ =>
                if MiniPython.mem x MiniPython.keywords then Unsupported
                else match String.get (String.length x) s with
                     | Some d => if is_dquote d || MiniPython.is_quote d then Unsupported
                                 else UnexpectedName x
                     | None => UnexpectedName x
                     end
            | None => Unsupported
            end
          else Unsupported
      end
  end.

(** What [description=( ... )] of [task_python_db_query] evaluates to. *)
Definition task_python_db_query_description : string_group_result :=
  string_group (String.length task_python_db_query_description_source) None
    task_python_db_query_description_source.

(** *** The class *)

Record SalesReportCrew : Type := {
  crew : Crew;
  llm : string
}.

(** The two task objects. *)
Definition task_python_db_query : task_ref := 0.
Definition write_task : task_ref := 1.

(** The objects [_setup_crew] builds first. *)
Definition vendas_tool : Tool :=
  {| tool_name := ExecutionTool.name;
     tool_description := ExecutionTool.description |}.

Definition analista_dados (self_llm : string) : Agent :=
  {| role := analista_dados_role;
     goal := analista_dados_goal;
     backstory := analista_dados_backstory;
     memory := true;
     verbose := true;
     CrewAI.llm := self_llm |}.

Definition redator (self_llm : string) : Agent :=
  {| role := redator_role;
     goal := redator_goal;
     backstory := redator_backstory;
     memory := false;
     verbose := true;
     CrewAI.llm := self_llm |}.

(** [_setup_crew], given the value of the description of
    [task_python_db_query]: the crew and the task objects it creates. *)
Definition _setup_crew (self_llm : string) (description_1 : string)
    : Crew * gmap task_ref Task :=
  let task_python_db_query_ :=
    {| description := description_1;
       expected_output := task_python_db_query_expected_output;
       agent := analista_dados self_llm;
       tools := [vendas_tool];
       context := None;
       output := None |} in
  let write_task_ :=
    {| description := write_task_description;
       expected_output := write_task_expected_output;
       agent := redator self_llm;
       tools := [];
       context := Some [task_python_db_query];
       output := None |} in
  ({| agents := [analista_dados self_llm; redator self_llm];
      tasks := [task_python_db_query; write_task];
      process := sequential |},
   <[write_task := write_task_]> (<[task_python_db_query := task_python_db_query_]> ∅)).

(** [SalesReportCrew()], in a process that has made [calls0] agent calls. *)
Definition __init__ (description_1 : string) (calls0 : nat) : SalesReportCrew * state :=
  let llm_ := "gpt-4o-mini" in
  let '(crew_, objects) := _setup_crew llm_ description_1 in
  ({| crew := crew_; llm := llm_ |}, {| heap := objects; calls := calls0 |}).

(** What a caller gets. *)
Inductive invocation : Type :=
| Returns (report : string)
| AgentCallRaises
| ImportRaisesSyntaxError (unexpected : string)
| NotModelled.

Section Runtime.

Variable interpolate : string → list (string * string) → string.
Variable agent_execute :
  nat → Agent → string → string → list Tool → list string → option string.

Definition kickoff (self : SalesReportCrew) (query : string) (st : state)
    : state * list event * option string :=
  CrewAI.kickoff interpolate agent_execute (crew self) [("query", query)] st.

(** The state after [kickoff] has been called on each of the queries
    [prev] in turn. *)
Fixpoint after (self : SalesReportCrew) (prev : list string) (st : state) : state :=
  match prev with
  | [] => st
  | q :: prev' => after self prev' (kickoff self q st).1.1
  end.

(** [from crew_sales_report import SalesReportCrew] followed by
    [SalesReportCrew().kickoff(query)]: the events and the result. *)
Definition import_and_kickoff (query : string) (calls0 : nat)
    : list event * invocation :=
  match task_python_db_query_description with
  | Literal description_1 =>
      let '(self, st) := __init__ description_1 calls0 in
      let '(_, evs, r) := kickoff self query st in
      (evs, match r with Some report => Returns report | None => AgentCallRaises end)
  | UnexpectedName x => ([], ImportRaisesSyntaxError x)
  | Unsupported => ([], NotModelled)
  end.

End Runtime.

(** *** What a caller observes *)

(** The contexts with which the task [t] is started, in order. *)
Definition started (t : task_ref) (evs : list event) : list (list string) :=
  flat_map (λ ev, match ev with
                  | TaskStarted t' context_ => if (t' =? t)%nat then [context_] else []
                  | _ => []
                  end) evs.

(** The Report, when the caller gets one. *)
Definition report_of (i : invocation) : option string :=
  match i with
  | Returns report => Some report
  | _ => None
  end.

End SalesReport.

(** ** Scripts: effects on a state, with exceptions

    The scripts below call out of the program (a database, the file
    system, a message service).  A computation runs against a state, which
    holds the calls made so far and the local variables that outlive a
    [try], and either returns or raises. *)

Module Eff.
Import Py.

Inductive result (S A : Type) : Type :=
| Returned (a : A) (s : S)
| Raised (e : pyexc) (s : S).
Arguments Returned {S A} a s.
Arguments Raised {S A} e s.

Definition eff (S A : Type) : Type := S → result S A.

Definition ret {S A} (a : A) : eff S A := λ s, Returned a s.

Definition bind {S A B} (m : eff S A) (k : A → eff S B) : eff S B :=
  λ s, match m s with
       | Returned a s' => k a s'
       | Raised e s' => Raised e s'
       end.

Definition raise {S A} (e : pyexc) : eff S A := λ s, Raised e s.

#[global] Instance eff_ret {S} : MRet (eff S) := @ret S.
#[global] Instance eff_bind {S} : MBind (eff S) := λ A B k m, bind m k.

(** The state a computation ends in. *)
Definition final {S A} (r : result S A) : S :=
  match r with Returned _ s | Raised _ s => s end.

(** [try: body  except C1 as e: h1 e  except C2 as e: h2 e ...]: the first
    clause whose class the exception is an instance of handles it; an
    exception that no clause matches passes through, and so does whatever
    a handler raises. *)
Definition try_except {S A} (body : eff S A)
    (clauses : list ((pyexc → bool) * (pyexc → eff S A))) : eff S A :=
  λ s, match body s with
       | Raised e s' =>
           match List.find (λ c, c.1 e) clauses with
           | Some c => c.2 e s'
           | None => Raised e s'
           end
       | r => r
       end.

(** [try: body  finally: cleanup]: the cleanup runs in every case; what it
    raises replaces the outcome of the body. *)
Definition try_finally {S A} (body : eff S A) (cleanup : eff S unit) : eff S A :=
  λ s, match body s with
       | Returned a s' =>
           match cleanup s' with
           | Returned _ s'' => Returned a s''
           | Raised e s'' => Raised e s''
           end
       | Raised e s' =>
           match cleanup s' with
           | Returned _ s'' => Raised e s''
           | Raised e' s'' => Raised e' s''
           end
       end.

(** [{e}] in an f-string. *)
Definition format {S} (e : pyexc) : eff S string :=
  match exc_str e with
  | StrReturns m => ret m
  | StrRaises e' => raise e'
  end.

End Eff.

(** ** setup_database.py: the table and its data *)

Module SetupDatabase.
Import Py Eff.

Definition CREATE_TABLE_SQL : string :=
  unlines
    [""; "CREATE TABLE IF NOT EXISTS vendas (";
     "    `Data da Venda` DATE,";
     "    `ID da Venda` VARCHAR(255) PRIMARY KEY,";
     "    `ID do Cliente` VARCHAR(255),";
     "    `Nome do Cliente` VARCHAR(255),";
     "    `Produto` VARCHAR(255),";
     "    `ID do Produto` VARCHAR(255),";
     "    `Categoria` VARCHAR(255),";
     "    `Preço Unitário` DECIMAL(10, 2),";
     "    `Quantidade` INT,";
     "    `Valor Total` DECIMAL(10, 2),";
     "    `Meio de Pagamento` VARCHAR(255),";
     "    `Vendedor` VARCHAR(255),";
     "    `Região` VARCHAR(255),";
     "    `Status da Venda` VARCHAR(255)";
     ");"; ""].

(** A cell of a data frame: [None], a [str], or any other object (a number,
    a missing value, a timestamp), named by its [repr]. *)
Inductive cell : Type :=
| CNone
| CStr (s : string)
| COther (repr : string).

(** A row gives a cell for each column of its frame. *)
Definition row : Type := string → cell.

Record DataFrame : Type := {
  columns : list string;
  rows : list row
}.

(** The calls that leave the program, and what it prints. *)
Inductive event : Type :=
| Print (line : string)
| Connect (host user password database : option string)
| Cursor
| Execute (operation : string) (params : option (list cell))
| Commit
| Rollback
| CursorClose
| Close
| ReadCsv (filepath : string)
| Exit (code : Z).

(** The calls made so far, and the two variables of the main block that
    its [except] and [finally] clauses read: whether each holds an object
    (rather than [None]). *)
Record state : Type := {
  trace : list event;
  db_connection : bool;
  cursor : bool
}.

Definition initial : state := {| trace := []; db_connection := false; cursor := false |}.

Definition table_columns : list string :=
  ["Data da Venda"; "ID da Venda"; "ID do Cliente"; "Nome do Cliente";
   "Produto"; "ID do Produto"; "Categoria"; "Preço Unitário";
   "Quantidade"; "Valor Total"; "Meio de Pagamento"; "Vendedor";
   "Região"; "Status da Venda"].

Definition insert_sql : string :=
  unlines
    [""; "        INSERT INTO vendas ("
         +:+ String.concat ", " (map (λ col, "`" +:+ col +:+ "`") table_columns) +:+ ")";
     "        VALUES ("
         +:+ String.concat ", " (repeat "%s" (length table_columns)) +:+ ")";
     "        ON DUPLICATE KEY UPDATE `ID da Venda`=`ID da Venda`; ";
     "        "].

Definition csv_file_path : string := "vendas_ficticias_brasil.csv".

(** [row[col] = v] *)
Definition set_cell (r : row) (col : string) (v : cell) : row :=
  λ c, if String.eqb c col then v else r c.

Section World.

(** The world outside the program.  Each answer may depend on all the
    calls made so far.
    - [fails h]: whether the call that ends the history [h] raises, and
      what;
    - [exists_ h path]: [os.path.exists(path)];
    - [frame h]: the frame that [pd.read_csv] followed by
      [df.where(pd.notnull(df), None)] gives when neither raises;
    - [rowcount h]: [cursor.rowcount];
    - [is_connected h]: [db_connection.is_connected()];
    - [strftime_date v]: [pd.to_datetime(v).strftime('%Y-%m-%d')];
    - [to_dict r]: the text of [row.to_dict()];
    - which exceptions are instances of [mysql.connector.Error] and of
      [pd.errors.EmptyDataError];
    - [environ]: the environment variables. *)
Variable fails : list event → option pyexc.
Variable exists_ : list event → string → bool.
Variable frame : list event → DataFrame.
Variable rowcount : list event → Z.
Variable is_connected : list event → bool.
Variable strftime_date : cell → string + pyexc.
Variable to_dict : row → string.
Variable isinstance_mysql_Error : pyexc → bool.
Variable isinstance_EmptyDataError : pyexc → bool.
Variable environ : gmap string string.

(** Something observable happens; it cannot fail. *)
Definition emit (ev : event) : eff state unit :=
  λ s, Returned () {| trace := trace s ++ [ev];
                      db_connection := db_connection s;
                      cursor := cursor s |}.

Definition print (line : string) : eff state unit := emit (Print line).

(** [d[key]] *)
Definition getitem (d : gmap string (option string)) (key : string)
    : eff state (option string) :=
  match d !! key with
  | Some v => mret v
  | None => raise (PyExc "KeyError" true (StrReturns ("'" +:+ key +:+ "'")))
  end.

(** A call out of the program: it is made, then returns or raises. *)
Definition call (ev : event) : eff state unit :=
  λ s, let s' := {| trace := trace s ++ [ev];
                    db_connection := db_connection s;
                    cursor := cursor s |} in
       match fails (trace s') with
       | Some e => Raised e s'
       | None => Returned () s'
       end.

Definition history : eff state (list event) := λ s, Returned (trace s) s.

Definition create_vendas_table : eff state unit :=
  try_except
    (_ ← call (Execute CREATE_TABLE_SQL None);
     print "Tabela 'vendas' verificada/criada com sucesso.")
    [(isinstance_mysql_Error,
      λ err,
        msg ← format err;
        _ ← print ("Erro ao criar tabela 'vendas': " +:+ msg);
        raise err)].

(** The two [except] clauses around the work on one row; the counters
    stay as they are. *)
Definition row_failed (index : nat) (r : row) (counts : nat * nat) (e : pyexc)
    : eff state (nat * nat) :=
  if isinstance_mysql_Error e then
    _ ← print ("Erro ao inserir linha " +:+ pretty (index + 2) +:+ ": " +:+ to_dict r);
    msg ← format e;
    _ ← print ("  Erro MySQL: " +:+ msg);
    mret counts
  else if isinstance_Exception e then
    _ ← print ("Erro inesperado ao processar linha " +:+ pretty (index + 2)
               +:+ ": " +:+ to_dict r);
    msg ← format e;
    _ ← print ("  Erro: " +:+ msg);
    mret counts
  else raise e.

(** The body of the loop over [df.iterrows()]. *)
Definition insert_row (index : nat) (r : row) (counts : nat * nat)
    : eff state (nat * nat) :=
  let converted : row + pyexc :=
    match r "Data da Venda" with
    | CNone | CStr _ => inl r
    | COther _ as v =>
        match strftime_date v with
        | inl d => inl (set_cell r "Data da Venda" (CStr d))
        | inr e => inr e
        end
    end in
  match converted with
  | inr e => row_failed index r counts e
  | inl r' =>
      try_except
        (let data_tuple := map r' table_columns in
         _ ← call (Execute insert_sql (Some data_tuple));
         h ← history;
         if (0 <? rowcount h)%Z
         then mret (S counts.1, counts.2)
         else mret (counts.1, S counts.2))
        [(λ _, true, row_failed index r' counts)]
  end.

Fixpoint insert_rows (index : nat) (rs : list row) (counts : nat * nat)
    : eff state (nat * nat) :=
  match rs with
  | [] => mret counts
  | r :: rs' =>
      counts' ← insert_row index r counts;
      insert_rows (S index) rs' counts'
  end.

Definition insert_data_from_csv (csv_filepath : string) : eff state unit :=
  try_except
    (h ← history;
     if negb (exists_ h csv_filepath) then
       print ("Erro: Arquivo CSV '" +:+ csv_filepath +:+ "' não encontrado.")
     else
       _ ← call (ReadCsv csv_filepath);
       h ← history;
       let df := frame h in
       match List.find (λ col, negb (MiniPython.mem col (columns df))) table_columns with
       | Some col =>
           print ("Erro: Coluna '" +:+ col
                  +:+ "' esperada não encontrada no arquivo CSV '"
                  +:+ csv_filepath +:+ "'.")
       | None =>
           counts ← insert_rows 0 (rows df) (0, 0);
           print ("Inserção de dados do CSV concluída. " +:+ pretty counts.1
                  +:+ " linhas inseridas, " +:+ pretty counts.2
                  +:+ " linhas ignoradas/atualizadas.")
       end)
    [(isinstance_EmptyDataError,
      λ _, print ("Erro: O arquivo CSV '" +:+ csv_filepath +:+ "' está vazio."));
     (isinstance_Exception,
      λ e,
        msg ← format e;
        _ ← print ("Erro ao processar o arquivo CSV '" +:+ csv_filepath +:+ "': " +:+ msg);
        raise e)].

Definition set_db_connection : eff state unit :=
  λ s, Returned () {| trace := trace s; db_connection := true; cursor := cursor s |}.

Definition set_cursor : eff state unit :=
  λ s, Returned () {| trace := trace s; db_connection := db_connection s; cursor := true |}.

(** [db_connection and db_connection.is_connected()] *)
Definition connected : eff state bool :=
  λ s, Returned (db_connection s && is_connected (trace s)) s.

Definition cursor_is_set : eff state bool := λ s, Returned (cursor s) s.

(** [exit(1)] *)
Definition exit (code : Z) : eff state unit :=
  _ ← emit (Exit code);
  raise (PyExc "SystemExit" false (StrReturns (pretty code))).

Fixpoint print_all (lines : list string) : eff state unit :=
  match lines with
  | [] => mret ()
  | l :: ls => _ ← print l; print_all ls
  end.

(** The block under [if __name__ == "__main__"]. *)
Definition main : eff state unit :=
  try_finally
    (try_except
       (_ ← print "Iniciando configuração do banco de dados...";
        let '(db_params, printed) := DbConfig.get_db_connection_params environ [] in
        _ ← print_all printed;
        _ ← (if negb (DbConfig.all (DbConfig.values db_params)) then
               _ ← print "Erro: Parâmetros de conexão com o banco de dados não estão totalmente configurados no arquivo .env.";
               exit 1
             else mret ());
        host ← getitem db_params "host";
        user ← getitem db_params "user";
        password ← getitem db_params "password";
        database ← getitem db_params "database";
        _ ← call (Connect host user password database);
        _ ← set_db_connection;
        _ ← call Cursor;
        _ ← set_cursor;
        _ ← print "Conexão com o banco de dados estabelecida.";
        _ ← create_vendas_table;
        h ← history;
        _ ← (if negb (exists_ h csv_file_path) then
               print ("AVISO: Arquivo CSV '" +:+ csv_file_path
                      +:+ "' não encontrado. A tabela 'vendas' foi criada, mas nenhum dado foi inserido.")
             else
               _ ← print ("Iniciando inserção de dados do arquivo '" +:+ csv_file_path +:+ "'...");
               _ ← insert_data_from_csv csv_file_path;
               _ ← call Commit;
               print "Dados do CSV inseridos e transação commitada.");
        print "Configuração do banco de dados concluída com sucesso.")
       [(isinstance_mysql_Error,
         λ err,
           msg ← format err;
           _ ← print ("Erro de banco de dados durante a configuração: " +:+ msg);
           c ← connected;
           if (c : bool) then _ ← call Rollback; print "Rollback da transação realizado."
           else mret ());
        (isinstance_Exception,
         λ e,
           msg ← format e;
           _ ← print ("Um erro inesperado ocorreu durante a configuração: " +:+ msg);
           c ← connected;
           if (c : bool) then
             _ ← call Rollback;
             print "Rollback da transação realizado devido a erro inesperado."
           else mret ())])
    (c ← cursor_is_set;
     _ ← (if (c : bool) then _ ← call CursorClose; print "Cursor fechado." else mret ());
     c ← connected;
     if (c : bool) then _ ← call Close; print "Conexão com o banco de dados fechada."
     else mret ()).

End World.

(** *** What a run leaves behind *)

(** The state after further events. *)
Definition extend (s : state) (evs : list event) : state :=
  {| trace := trace s ++ evs;
     db_connection := db_connection s;
     cursor := cursor s |}.

(** The parameter tuples of the statements executed with parameters. *)
Definition executed (evs : list event) : list (list cell) :=
  omap (λ ev, match ev with Execute _ (Some data) => Some data | _ => None end) evs.

(** Whether an event is the first of the two lines printed for a row that
    failed. *)
Definition is_row_error (ev : event) : bool :=
  match ev with
  | Print line =>
      String.prefix "Erro ao inserir linha " line
      || String.prefix "Erro inesperado ao processar linha " line
  | _ => false
  end.

Definition row_errors (evs : list event) : nat :=
  length (List.filter is_row_error evs).

(** The tuple a row is inserted with: its cells in the order of the table,
    the date converted where it is neither [None] nor a [str]; [None] when
    the conversion raises. *)
Definition prepared (strftime_date : cell → string + pyexc) (r : row)
    : option (list cell) :=
  match r "Data da Venda" with
  | CNone | CStr _ => Some (map r table_columns)
  | COther _ as v =>
      match strftime_date v with
      | inl d => Some (map (set_cell r "Data da Venda" (CStr d)) table_columns)
      | inr _ => None
      end
  end.

(** The line that ends a load. *)
Definition summary (inserted skipped : nat) : string :=
  "Inserção de dados do CSV concluída. " +:+ pretty inserted
  +:+ " linhas inseridas, " +:+ pretty skipped
  +:+ " linhas ignoradas/atualizadas.".

(** Whether the four connection variables are all set and not empty. *)
Definition configured (environ : gmap string string) : bool :=
  forallb (λ var, DbConfig.truthy (DbConfig.getenv environ var))
    ["DB_HOST"; "DB_USER"; "DB_PASSWORD"; "DB_NAME"].

(** What the main block prints and calls until the table is there, when
    nothing fails, and what it ends with. *)
Definition opening (environ : gmap string string) : list event :=
  [Print "Iniciando configuração do banco de dados...";
   Connect (DbConfig.getenv environ "DB_HOST") (DbConfig.getenv environ "DB_USER")
     (DbConfig.getenv environ "DB_PASSWORD") (DbConfig.getenv environ "DB_NAME");
   Cursor;
   Print "Conexão com o banco de dados estabelecida.";
   Execute CREATE_TABLE_SQL None;
   Print "Tabela 'vendas' verificada/criada com sucesso.";
   Print ("Iniciando inserção de dados do arquivo '" +:+ csv_file_path +:+ "'...")].

Definition committing : list event :=
  [Commit;
   Print "Dados do CSV inseridos e transação commitada.";
   Print "Configuração do banco de dados concluída com sucesso."].

Definition closing : list event :=
  [CursorClose; Print "Cursor fechado.";
   Close; Print "Conexão com o banco de dados fechada."].

(** The place of a call in the life of a connection; printing has none. *)
Definition stage (ev : event) : option nat :=
  match ev with
  | Print _ => None
  | Exit _ => Some 0
  | Connect _ _ _ _ => Some 1
  | Cursor => Some 2
  | ReadCsv _ | Execute _ _ => Some 3
  | Commit => Some 4
  | Rollback => Some 5
  | CursorClose => Some 6
  | Close => Some 7
  end.

(** The least stage that may follow a call of stage [n]: statements (stage
    3) may follow one another, every other call is made once. *)
Definition next_stage (n : nat) : nat := if (n =? 3)%nat then 3 else S n.

(** Whether the calls of [evs] are made in the order of their stages, from
    stage [lo] on and up to stage [hi]. *)
Fixpoint within (lo hi : nat) (evs : list event) : bool :=
  match evs with
  | [] => true
  | ev :: evs' =>
      match stage ev with
      | None => within lo hi evs'
      | Some n => (lo <=? n)%nat && (n <=? hi)%nat && within (next_stage n) hi evs'
      end
  end.

(** The order of the calls of a run: [exit], [connect], [cursor],
    statements, [commit], [rollback], [cursor.close], [close]. *)
Definition in_order (evs : list event) : bool := within 0 7 evs.

(** *** Sample worlds

    A complete and a partial environment; a frame of five rows with the
    columns of the table, and one that lacks most of them; a database that
    refuses the sale [V4], and one that refuses every connection. *)

Definition sample_environ : gmap string string :=
  {[ "DB_HOST" := "localhost"; "DB_USER" := "root";
     "DB_PASSWORD" := "s3cret"; "DB_NAME" := "vendas" ]}.

Definition partial_environ : gmap string string :=
  {[ "DB_HOST" := "localhost"; "DB_USER" := "root"; "DB_PASSWORD" := "" ]}.

Definition sample_row (date : cell) (id : string) : row :=
  λ col, if String.eqb col "Data da Venda" then date
         else if String.eqb col "ID da Venda" then CStr id
         else CStr "x".

Definition sample_frame : DataFrame :=
  {| columns := table_columns;
     rows := [sample_row (CStr "2024-01-05") "V1";
              sample_row (COther "True") "V2";
              sample_row (COther "Timestamp('2024-01-07 00:00:00')") "V3";
              sample_row CNone "V4";
              sample_row (CStr "2024-01-05") "V1"] |}.

Definition short_frame : DataFrame :=
  {| columns := ["Data da Venda"; "ID da Venda"]; rows := [] |}.

Definition sample_strftime_date (v : cell) : string + pyexc :=
  match v with
  | COther "Timestamp('2024-01-07 00:00:00')" => inl "2024-01-07"
  | _ => inr (TypeError "<class 'bool'> is not convertible to datetime")
  end.

Definition sample_to_dict (r : row) : string :=
  match r "ID da Venda" with
  | CStr id => "{'ID da Venda': '" +:+ id +:+ "'}"
  | _ => "{}"
  end.

Definition DataError : pyexc :=
  PyExc "DataError" true (StrReturns "1406 (22001): Data too long for column").

Definition InterfaceError : pyexc :=
  PyExc "InterfaceError" true (StrReturns "2003: Can't connect to MySQL server").

Definition EmptyDataError : pyexc :=
  PyExc "EmptyDataError" true (StrReturns "No columns to parse from file").

Definition sample_isinstance_mysql_Error (e : pyexc) : bool :=
  match e with
  | PyExc cls d _ => d && (String.eqb cls "DataError" || String.eqb cls "InterfaceError")
  end.

Definition sample_isinstance_EmptyDataError (e : pyexc) : bool :=
  match e with PyExc cls d _ => d && String.eqb cls "EmptyDataError" end.

(** Whether an event is the insertion of the sale [id]. *)
Definition inserts_id (id : string) (ev : event) : bool :=
  match ev with
  | Execute _ (Some (_ :: CStr id' :: _)) => String.eqb id' id
  | _ => false
  end.

Definition refuses_V4 (h : list event) : option pyexc :=
  match last h with
  | Some ev => if inserts_id "V4" ev then Some DataError else None
  | None => None
  end.

Definition refuses_connections (h : list event) : option pyexc :=
  match last h with
  | Some (Connect _ _ _ _) => Some InterfaceError
  | _ => None
  end.

Definition empty_file (h : list event) : option pyexc :=
  match last h with
  | Some (ReadCsv _) => Some EmptyDataError
  | _ => None
  end.

(** One row affected by a first insertion of a sale, none by a second. *)
Definition sample_rowcount (h : list event) : Z :=
  match last h with
  | Some (Execute _ (Some (_ :: CStr id :: _))) =>
      if (1 <? length (List.filter (inserts_id id) h))%nat then 0 else 1
  | _ => -1
  end.

(** A computation adds calls in order, from stage [lo] up to stage [hi],
    however it ends. *)
Definition emits {A} (lo hi : nat) (m : eff state A) : Prop :=
  ∀ s, ∃ evs, trace (final (m s)) = trace s ++ evs ∧ within lo hi evs = true.

End SetupDatabase.

(** ** send_sandeco.py and app.py: the sender and the webhook

    [SendSandeco] wraps the client of the message service; [webhook] is
    the handler that receives a message, runs the pipeline on it and
    answers.  The classes [Message], [Transcript], [FluxoAudio] and
    [TextToSpeech] that [webhook] uses are not part of these sources: what
    their constructors, methods and attributes give is a parameter, and
    they are taken to have the attributes and the methods the code uses. *)

Module App.
Import Py Eff.

(** Keyword arguments and [dict] literals, in the order they are
    written. *)
Definition kwargs : Type := list (string * pyobj).

(** The calls that leave the program, and what it prints. *)
Inductive event : Type :=
| Print (line : string)
| LoadDotenv
| NewEvolutionClient (base_url api_token : option string)
| Sleep (seconds : Z)
| SendText (instance_id : option string) (message : kwargs) (instance_token : option string)
| SendMedia (instance_id : option string) (message : kwargs)
    (instance_token : option string) (file : string)
| SendWhatsappAudio (instance_id : option string) (message : kwargs)
    (instance_token : option string) (file : string)
| GetJson
| NewMessage (data : pyobj)
| GetText (msg : pyobj)
| NewTranscript
| TranscriptGetText (msg : pyobj)
| NewFluxoAudio
| Kickoff (inputs : kwargs)
| NewTextToSpeech
| SynthesizeSpeech (text : pyobj) (output_file : string)
| CallMethod (name : string) (arguments : kwargs).

(** The calls made so far, and the local variable [msg] of [webhook],
    which its [except] clause reads: unbound until [Message(data)] has
    returned. *)
Record state : Type := {
  trace : list event;
  msg : option pyobj
}.

Definition initial : state := {| trace := []; msg := None |}.

(** The attributes of an instance: the credentials [__init__] reads and
    the client it builds with two of them. *)
Record SendSandeco : Type := {
  evo_api_token : option string;
  evo_instance_id : option string;
  evo_instance_token : option string;
  evo_base_url : option string
}.

(** The names an instance of [SendSandeco] has: those [__init__] sets,
    those the class body binds, and those of [object]. *)
Definition instance_attributes : list string :=
  ["evo_api_token"; "evo_instance_id"; "evo_instance_token"; "evo_base_url"; "client"].

Definition class_attributes : list string :=
  ["__module__"; "__doc__"; "__dict__"; "__weakref__"; "__init__"; "textMessage";
   "PDF"; "audio"; "audioBase64"; "image"; "video"; "document"].

Definition object_attributes : list string :=
  ["__class__"; "__delattr__"; "__dir__"; "__eq__"; "__format__"; "__ge__";
   "__getattribute__"; "__getstate__"; "__gt__"; "__hash__"; "__init_subclass__";
   "__le__"; "__lt__"; "__ne__"; "__new__"; "__reduce__"; "__reduce_ex__";
   "__repr__"; "__setattr__"; "__sizeof__"; "__str__"; "__subclasshook__"].

Definition hasattr (name : string) : bool :=
  MiniPython.mem name (instance_attributes ++ class_attributes ++ object_attributes).

Definition AttributeError (name : string) : pyexc :=
  PyExc "AttributeError" true
    (StrReturns ("'SendSandeco' object has no attribute '" +:+ name +:+ "'")).

Definition FileNotFoundError (file : string) : pyexc :=
  PyExc "FileNotFoundError" true (StrReturns ("Arquivo '" +:+ file +:+ "' não encontrado.")).

(** Reading a local variable that is not bound (the message is that of
    CPython 3.11 and later). *)
Definition UnboundLocalError (name : string) : pyexc :=
  PyExc "UnboundLocalError" true
    (StrReturns ("cannot access local variable '" +:+ name
                 +:+ "' where it is not associated with a value")).

Definition has_slash (p : string) : bool :=
  existsb (Ascii.eqb "/") (list_ascii_of_string p).

(** [os.path.basename(p)], on a system whose separator is [/]. *)
Fixpoint basename (p : string) : string :=
  match p with
  | EmptyString => EmptyString
  | String c p' =>
      if Ascii.eqb "/" c || has_slash p' then basename p' else p
  end.

Definition authorised_phone : string := "556281685163".

Definition apology : string :=
  "Ocorreu um erro ao processar a mensagem. Por favor, tente novamente.".

Section World.

(** The world outside the program.  Each answer may depend on all the
    calls made so far.
    - [fails h]: whether the call that ends the history [h] raises, and
      what;
    - [returns h]: what it returns when it does not raise;
    - [exists_ h path]: [os.path.exists(path)];
    - [getenv h key]: [os.getenv(key)];
    - [phone m], [message_type m]: the attributes of a [Message];
    - [TYPE_TEXT], [TYPE_AUDIO]: the constants of the class [Message];
    - [py_eq a b]: [a == b]. *)
Variable fails : list event → option pyexc.
Variable returns : list event → pyobj.
Variable exists_ : list event → string → bool.
Variable getenv : list event → string → option string.
Variable phone : pyobj → pyobj.
Variable message_type : pyobj → pyobj.
Variable TYPE_TEXT : pyobj.
Variable TYPE_AUDIO : pyobj.
Variable py_eq : pyobj → pyobj → bool.

Definition print (line : string) : eff state unit :=
  λ s, Returned () {| trace := trace s ++ [Print line]; msg := msg s |}.

(** A call out of the program: it is made, then returns a value or
    raises. *)
Definition call (ev : event) : eff state pyobj :=
  λ s, let s' := {| trace := trace s ++ [ev]; msg := msg s |} in
       match fails (trace s') with
       | Some e => Raised e s'
       | None => Returned (returns (trace s')) s'
       end.

Definition history : eff state (list event) := λ s, Returned (trace s) s.

(** *** send_sandeco.py *)

(** [SendSandeco()] *)
Definition __init__ : eff state SendSandeco :=
  _ ← call LoadDotenv;
  h ← history;
  let self := {| evo_api_token := getenv h "EVO_API_TOKEN";
                 evo_instance_id := getenv h "EVO_INSTANCE_NAME";
                 evo_instance_token := getenv h "EVO_INSTANCE_TOKEN";
                 evo_base_url := getenv h "EVO_BASE_URL" |} in
  _ ← call (NewEvolutionClient (evo_base_url self) (evo_api_token self));
  mret self.

Definition textMessage (self : SendSandeco) (number msg_ mentions : pyobj)
    : eff state pyobj :=
  match py_str number with
  | StrRaises e => raise e
  | StrReturns n =>
      let text_message : kwargs :=
        [("number", PyStr n); ("text", msg_); ("mentioned", mentions)] in
      _ ← call (Sleep 10);
      call (SendText (evo_instance_id self) text_message (evo_instance_token self))
  end.

Definition PDF (self : SendSandeco) (number : pyobj) (pdf_file : string)
    (caption : pyobj) : eff state pyobj :=
  h ← history;
  if negb (exists_ h pdf_file) then raise (FileNotFoundError pdf_file)
  else
    let media_message : kwargs :=
      [("number", number); ("mediatype", PyStr "document");
       ("mimetype", PyStr "application/pdf"); ("caption", caption);
       ("fileName", PyStr (basename pdf_file)); ("media", PyStr "")] in
    _ ← call (SendMedia (evo_instance_id self) media_message
                (evo_instance_token self) pdf_file);
    mret PyNone.

Definition audio (self : SendSandeco) (number : pyobj) (audio_file : string)
    : eff state pyobj :=
  h ← history;
  if negb (exists_ h audio_file) then raise (FileNotFoundError audio_file)
  else
    let audio_message : kwargs :=
      [("number", number); ("mediatype", PyStr "audio");
       ("mimetype", PyStr "audio/mpeg"); ("caption", PyStr "")] in
    _ ← call (SendWhatsappAudio (evo_instance_id self) audio_message
                (evo_instance_token self) audio_file);
    mret (PyStr "Áudio enviado").

Definition audioBase64 (self : SendSandeco) (number : pyobj) (audio_file : string)
    : eff state pyobj :=
  let audio_message : kwargs :=
    [("number", number); ("mediatype", PyStr "audio");
     ("mimetype", PyStr "audio/mpeg"); ("caption", PyStr "")] in
  _ ← call (SendWhatsappAudio (evo_instance_id self) audio_message
              (evo_instance_token self) audio_file);
  mret PyNone.

Definition image (self : SendSandeco) (number : pyobj) (image_file : string)
    (caption : pyobj) : eff state pyobj :=
  h ← history;
  if negb (exists_ h image_file) then raise (FileNotFoundError image_file)
  else
    let media_message : kwargs :=
      [("number", number); ("mediatype", PyStr "image");
       ("mimetype", PyStr "image/jpeg"); ("caption", caption);
       ("fileName", PyStr (basename image_file)); ("media", PyStr "")] in
    _ ← call (SendMedia (evo_instance_id self) media_message
                (evo_instance_token self) image_file);
    mret (PyStr "Imagem enviada").

Definition video (self : SendSandeco) (number : pyobj) (video_file : string)
    (caption : pyobj) : eff state pyobj :=
  h ← history;
  if negb (exists_ h video_file) then raise (FileNotFoundError video_file)
  else
    let media_message : kwargs :=
      [("number", number); ("mediatype", PyStr "video");
       ("mimetype", PyStr "video/mp4"); ("caption", caption);
       ("fileName", PyStr (basename video_file)); ("media", PyStr "")] in
    _ ← call (SendMedia (evo_instance_id self) media_message
                (evo_instance_token self) video_file);
    mret (PyStr "Vídeo enviado").

Definition document (self : SendSandeco) (number : pyobj) (document_file : string)
    (caption : pyobj) : eff state pyobj :=
  h ← history;
  if negb (exists_ h document_file) then raise (FileNotFoundError document_file)
  else
    let media_message : kwargs :=
      [("number", number); ("mediatype", PyStr "document");
       ("mimetype",
        PyStr "application/vnd.openxmlformats-officedocument.wordprocessingml.document");
       ("caption", caption);
       ("fileName", PyStr (basename document_file)); ("media", PyStr "")] in
    _ ← call (SendMedia (evo_instance_id self) media_message
                (evo_instance_token self) document_file);
    mret (PyStr "Documento enviado").

(** [send.name], as far as the call that follows it needs: an instance
    has the attribute or the lookup raises. *)
Definition getattr (self : SendSandeco) (name : string) : eff state unit :=
  if hasattr name then mret () else raise (AttributeError name).

(** *** app.py *)

Definition set_msg (m : pyobj) : eff state unit :=
  λ s, Returned () {| trace := trace s; msg := Some m |}.

(** Reading the local variable [msg]. *)
Definition load_msg : eff state pyobj :=
  λ s, match msg s with
       | Some m => Returned m s
       | None => Raised (UnboundLocalError "msg") s
       end.

(** The body of the [try] of [webhook]. *)
Definition webhook_try : eff state unit :=
  data ← call GetJson;
  m ← call (NewMessage data);
  _ ← set_msg m;
  if py_eq (phone m) (PyStr authorised_phone) then
    text ← (if py_eq (message_type m) TYPE_TEXT then
              t ← call (GetText m); mret (Some t)
            else if py_eq (message_type m) TYPE_AUDIO then
              _ ← call NewTranscript;
              t ← call (TranscriptGetText m); mret (Some t)
            else mret None);
    _ ← call NewFluxoAudio;
    text ← (match text with
            | Some t => mret t
            | None => raise (UnboundLocalError "text")
            end);
    resposta ← call (Kickoff [("text", text)]);
    _ ← call NewTextToSpeech;
    _ ← call (SynthesizeSpeech resposta "output.mp3");
    send ← __init__;
    _ ← audio send (phone m) "output.mp3";
    mret ()
  else mret ().

(** The [except Exception as e] clause of [webhook]. *)
Definition webhook_except (e : pyexc) : eff state unit :=
  text ← format e;
  _ ← print ("Error occurred: " +:+ text);
  send ← __init__;
  _ ← getattr send "text";
  m ← load_msg;
  _ ← call (CallMethod "text" [("number", phone m); ("text", PyStr apology)]);
  mret ().

Definition webhook : eff state string :=
  _ ← __init__;
  _ ← try_except webhook_try [(isinstance_Exception, webhook_except)];
  mret "resposta".

End World.

(** *** What a run did *)

(** Whether an event hands something to the message service. *)
Definition is_send (ev : event) : bool :=
  match ev with
  | SendText _ _ _ | SendMedia _ _ _ _ | SendWhatsappAudio _ _ _ _ | CallMethod _ _ => true
  | _ => false
  end.

(** Whether an event is a step of the pipeline: transcription, the crew,
    speech synthesis. *)
Definition is_pipeline (ev : event) : bool :=
  match ev with
  | GetText _ | NewTranscript | TranscriptGetText _ | NewFluxoAudio | Kickoff _
  | NewTextToSpeech | SynthesizeSpeech _ _ => true
  | _ => false
  end.

(** The state after further events. *)
Definition extend (s : state) (evs : list event) : state :=
  {| trace := trace s ++ evs; msg := msg s |}.

(** A computation adds only events that satisfy [P], however it ends. *)
Definition adds {A} (P : event → Prop) (m : eff state A) : Prop :=
  ∀ s, ∃ evs, trace (final (m s)) = trace s ++ evs ∧ Forall P evs.

(** What [webhook] is allowed to hand to the message service: the audio
    [output.mp3], to a number that passed the check. *)
Definition allowed (py_eq : pyobj → pyobj → bool) (ev : event) : Prop :=
  match ev with
  | SendWhatsappAudio _ message _ file =>
      file = "output.mp3"
      ∧ ∃ number, py_eq number (PyStr authorised_phone) = true
                  ∧ message = [("number", number); ("mediatype", PyStr "audio");
                               ("mimetype", PyStr "audio/mpeg"); ("caption", PyStr "")]
  | SendText _ _ _ | SendMedia _ _ _ _ | CallMethod _ _ => False
  | _ => True
  end.

(** *** Sample worlds

    A service in which every call returns [None] and the environment
    holds no credentials; a request whose body cannot be read; senders
    and message types. *)

Definition BadRequest : pyexc :=
  PyExc "BadRequest" true (StrReturns "400 Bad Request").

Definition no_json (h : list event) : option pyexc :=
  match last h with
  | Some GetJson => Some BadRequest
  | _ => None
  end.

(** [a == b] on [None], [int] and [str]. *)
Definition sample_py_eq (a b : pyobj) : bool :=
  match a, b with
  | PyNone, PyNone => true
  | PyInt x, PyInt y => Z.eqb x y
  | PyStr x, PyStr y => String.eqb x y
  | _, _ => false
  end.

Definition sample_self : SendSandeco :=
  {| evo_api_token := Some "token"; evo_instance_id := Some "instancia";
     evo_instance_token := Some "token-da-instancia";
     evo_base_url := Some "https://api.example" |}.

End App.

(** * Properties *)

(** ** Text *)

Lemma append_cons (x : ascii) (a b : string) : String x a +:+ b = String x (a +:+ b).
Proof. reflexivity. Qed.

Lemma append_assoc (a b c : string) : (a +:+ b) +:+ c = a +:+ (b +:+ c).
Proof.
  induction a as [|x a IH]; [reflexivity|].
  rewrite !append_cons. now f_equal.
Qed.

Lemma append_empty_r (a : string) : a +:+ EmptyString = a.
Proof.
  induction a as [|x a IH]; [reflexivity|].
  rewrite append_cons. now f_equal.
Qed.

Lemma contains_middle (a b c : string) : contains (a +:+ b +:+ c) b.
Proof. now exists a, c. Qed.

Lemma contains_end (a b : string) : contains (a +:+ b) b.
Proof. exists a, EmptyString. now rewrite append_empty_r. Qed.

(** ** The execution tool, for any runtime *)

Section ExecutionToolProperties.
Import Py ExecutionTool.

Context {W : Type} (py : Runtime W).

Lemma call_exec_builtin code l w :
  can_exec py w → call_exec py code l w = exec py code l w.
Proof. intros [He Hg]. unfold call_exec. now rewrite He, Hg. Qed.

(** The [except] clause, once it has taken the error. *)
Lemma report_reported e w msg w' :
  lookup py "type" w = Builtin →
  format_exception py e w = Done msg w' →
  report py e w = Done (PyStr (error_prefix +:+ type_name e +:+ ": " +:+ msg)) w'.
Proof.
  intros Ht Hf. unfold report, type_name_of, mbind, M_bind, bind.
  now rewrite Ht, Hf.
Qed.

(** What the [except] clause returns is a diagnostic. *)
Lemma report_Done e w r w' :
  report py e w = Done r w' →
  ∃ cls msg, r = PyStr (error_prefix +:+ cls +:+ ": " +:+ msg).
Proof.
  unfold report, mbind, M_bind, bind.
  destruct (type_name_of py e w) as [cls w1| |]; [|discriminate..].
  destruct (format_exception py e w1) as [msg w2| |]; [|discriminate..].
  intros [= <- _]. eauto.
Qed.

(** An error raised inside the [try] block meets the [except] clause. *)
Lemma run_exec_Raised code w e w1 :
  can_exec py w →
  exec py code ∅ w = Raised e w1 →
  lookup py "Exception" w1 = Builtin →
  _run py code w = if isinstance_Exception e then report py e w1 else Raised e w1.
Proof.
  intros Hc H Hx. unfold _run, try_except, mbind, M_bind, bind.
  rewrite (call_exec_builtin _ _ _ Hc), H.
  unfold except_Exception. rewrite Hx. now destruct (isinstance_Exception e).
Qed.

Lemma run_exec_Diverged code w :
  can_exec py w → exec py code ∅ w = Diverged → _run py code w = Diverged.
Proof.
  intros Hc H. unfold _run, try_except, mbind, M_bind, bind.
  now rewrite (call_exec_builtin _ _ _ Hc), H.
Qed.

(** When the text completes, [_run] converts what [resultado] is bound
    to, or the sentinel. *)
Lemma run_exec_Done code w l w1 :
  can_exec py w →
  exec py code ∅ w = Done l w1 →
  lookup py "str" w1 = Builtin →
  _run py code w
  = match builtin_str py (dict_get l "resultado" (PyStr sentinel)) w1 with
    | Done s w2 => Done (PyStr s) w2
    | Raised e w2 =>
        match except_Exception py e w2 with
        | Done true w3 => report py e w3
        | Done false w3 => Raised e w3
        | Raised e' w3 => Raised e' w3
        | Diverged => Diverged
        end
    | Diverged => Diverged
    end.
Proof.
  intros Hc H Hs. unfold _run, try_except, mbind, M_bind, bind.
  rewrite (call_exec_builtin _ _ _ Hc), H.
  unfold call_str, mbind, M_bind, bind. rewrite Hs.
  now destruct (builtin_str py _ w1).
Qed.

Lemma diagnostic_is_not_sentinel (cls msg : string) :
  error_prefix +:+ cls +:+ ": " +:+ msg ≠ sentinel.
Proof.
  intros Heq. apply (f_equal (String.get 0)) in Heq.
  vm_compute in Heq. discriminate Heq.
Qed.





(** For any runtime, [_run] returns a string whenever the names it looks
    up denote the builtins, the execution terminates and every error in the
    way is one that the [except] clause takes and renders. *)
Lemma run_returns_a_string code w :
  can_exec py w →
  exec py code ∅ w ≠ Diverged →
  (∀ e w1, exec py code ∅ w = Raised e w1 → reported py e w1) →
  (∀ l w1, exec py code ∅ w = Done l w1 →
     lookup py "str" w1 = Builtin
     ∧ match builtin_str py (dict_get l "resultado" (PyStr sentinel)) w1 with
       | Done _ _ => True
       | Raised e w2 => reported py e w2
       | Diverged => False
       end) →
  ∃ s w', _run py code w = Done (PyStr s) w'.
Proof.
  intros Hc Hterm Hraise Hstr.
  destruct (exec py code ∅ w) as [l w1|e w1|] eqn:E.
  - destruct (Hstr l w1 eq_refl) as [Hn Hb].
    rewrite (run_exec_Done _ _ _ _ Hc E Hn).
    destruct (builtin_str py _ w1) as [s w2|e w2|]; [now eauto| |contradiction].
    destruct Hb as (Hx & He & Ht & msg & w3 & Hf).
    unfold except_Exception. rewrite Hx, He.
    rewrite (report_reported _ _ _ _ Ht Hf). eauto.
  - destruct (Hraise e w1 eq_refl) as (Hx & He & Ht & msg & w3 & Hf).
    rewrite (run_exec_Raised _ _ _ _ Hc E Hx), He.
    rewrite (report_reported _ _ _ _ Ht Hf). eauto.
  - now contradiction Hterm.
Qed.



End ExecutionToolProperties.

(** ** The execution tool on program texts of the fragment *)

Section OnProgramTexts.
Import Py ExecutionTool MiniPython.

Ltac unfold_monad :=
  unfold load_name, raise_stmt, get_globals, set_globals, raise,
    mbind, M_bind, bind, mret, M_ret, ret in *.

(** Without names declared [global], a statement leaves the globals as
    they are. *)
Lemma exec_stmt_keeps_globals (s : stmt) (l g : namespace) :
  match exec_stmt [] s l g with
  | Done _ g' | Raised _ g' => g' = g
  | Diverged => True
  end.
Proof.
  destruct s as [|x e|x|x|c arg|]; simpl; unfold_monad; try reflexivity.
  - destruct e as [|z zs|s|y]; simpl; unfold_monad; try reflexivity.
    now destruct (lookup_name [] y l g).
  - now destruct (l !! x).
  - destruct (lookup_name [] c l g); [now destruct arg|].
    now destruct (assoc c builtin_exceptions).
Qed.

Lemma exec_block_keeps_globals (p : list stmt) :
  ∀ l g, match exec_block [] p l g with
         | Done _ g' | Raised _ g' => g' = g
         | Diverged => True
         end.
Proof.
  induction p as [|s p IH]; intros l g; [reflexivity|].
  cbn [exec_block]. unfold mbind, M_bind, bind.
  pose proof (exec_stmt_keeps_globals s l g) as Hs.
  destruct (exec_stmt [] s l g) as [l' g'|e g'|]; [subst g'; apply IH | exact Hs | exact I].
Qed.

Lemma global_names_nil (p : list stmt) :
  declares_no_global p = true → global_names p = [].
Proof.
  unfold declares_no_global.
  induction p as [|s p IH]; [reflexivity|].
  cbn [forallb]. intros [Hs Hp]%andb_prop.
  unfold global_names in *. cbn [flat_map]. rewrite (IH Hp).
  now destruct s.
Qed.

(** A text of the fragment that declares no name [global] leaves the
    globals as they are, whatever it does. *)
Lemma exec_keeps_globals beyond (code : string) (p : list stmt) (l g g1 : namespace) :
  parse code = Some p →
  declares_no_global p = true →
  state_after (MiniPython.exec beyond code l g) = Some g1 →
  g1 = g.
Proof.
  unfold MiniPython.exec. intros -> Hp. rewrite (global_names_nil _ Hp).
  pose proof (exec_block_keeps_globals p l g) as Hb.
  destruct (exec_block [] p l g); simpl; intros [= <-]; congruence.
Qed.

(** In the runtime of the fragment, what [_run] does besides the call of
    [exec] leaves the globals as they are. *)
Lemma run_state_after beyond (code : string) (g g1 : namespace) :
  state_after (run beyond code g) = Some g1 →
  g1 = g ∨ state_after (MiniPython.exec beyond code ∅ g) = Some g1.
Proof.
  unfold run, _run, try_except, call_exec, call_str, except_Exception, report,
    type_name_of, builtin_str, mbind, M_bind, bind, mret, M_ret, ret. cbn.
  unfold lookup.
  destruct (g !! "exec") as [ve|], (g !! "globals") as [vg|]; cbn.
  1-3: destruct (g !! "Exception"); cbn; [intros [= <-]; now left|];
       destruct (g !! "type"); cbn; (intros [= <-]; now left).
  destruct (MiniPython.exec beyond code ∅ g) as [l g'|e g'|]; cbn; [| |discriminate].
  - destruct (g' !! "str"); cbn.
    + destruct (g' !! "Exception"); cbn; [intros [= <-]; now right|].
      destruct (g' !! "type"); cbn; (intros [= <-]; now right).
    + assert (Hpure : ∀ v : pyobj,
                match v with
                | PyObject _ _ => of_str_outcome (py_str v)
                | _ => of_str_outcome (py_str v)
                end g'
                = match py_str v with
                  | StrReturns s => Done s g'
                  | StrRaises e => Raised e g'
                  end).
      { intros v. now destruct v; destruct (py_str _). }
      rewrite Hpure. destruct (py_str _) as [s|e]; cbn; [intros [= <-]; now right|].
      destruct (g' !! "Exception"); cbn; [intros [= <-]; now right|].
      destruct (isinstance_Exception e); cbn; [|intros [= <-]; now right].
      destruct (g' !! "type"); cbn; [intros [= <-]; now right|].
      destruct (exc_str e); cbn; (intros [= <-]; now right).
  - destruct (g' !! "Exception"); cbn; [intros [= <-]; now right|].
    destruct (isinstance_Exception e); cbn; [|intros [= <-]; now right].
    destruct (g' !! "type"); cbn; [intros [= <-]; now right|].
    destruct (exc_str e); cbn; (intros [= <-]; now right).
Qed.

(** A block that never assigns to a name of the locals leaves it unbound
    there. *)
Lemma never_bound_stays_unbound (x : string) (gl : list string) (p : list stmt) :
  Forall (λ s, ∀ e, s ≠ SAssign x e) p →
  ∀ l g l' g',
    l !! x = None →
    exec_block gl p l g = Done l' g' →
    l' !! x = None.
Proof.
  induction 1 as [|s p Hs _ IH]; intros l g l' g' Hl;
    [now intros [= <- _]|].
  cbn [exec_block]. unfold mbind, M_bind, bind.
  destruct (exec_stmt gl s l g) as [l1 g1| |] eqn:E; [|discriminate..].
  apply IH. clear IH.
  destruct s as [|y e|y|y|c arg|]; simpl in E; unfold_monad.
  - now injection E as <- _.
  - destruct (eval gl e l g) as [v gv| |]; [|discriminate..].
    destruct (mem y gl); injection E as <- _; [assumption|].
    rewrite lookup_insert_ne; [assumption|]. intros ->. now apply (Hs e).
  - now injection E as <- _.
  - destruct (mem y gl).
    + destruct (g !! y); [|discriminate]. now injection E as <- _.
    + destruct (l !! y); [|discriminate]. injection E as <- _.
      destruct (decide (y = x)) as [->|Hne];
        [apply lookup_delete_eq | now rewrite lookup_delete_ne].
  - destruct (lookup_name gl c l g); [now destruct arg|].
    now destruct (assoc c builtin_exceptions).
  - discriminate.
Qed.

(** The empty text binds nothing. *)
Lemma exec_empty_text beyond (l g : namespace) : MiniPython.exec beyond "" l g = Done l g.
Proof. reflexivity. Qed.

(** In the globals of the module as imported, the names [_run] looks up
    denote the builtins. *)
Lemma module_globals_can_exec beyond : can_exec (runtime beyond) module_globals.
Proof. split; reflexivity. Qed.

(** *** C1 *)



(** *** C2 *)



(** *** C3 *)



(** *** C10 *)



(** *** C4 *)




(** *** C5 *)




(** *** The conversion and the rendering that fail *)



End OnProgramTexts.

(** ** The connection parameters *)

Section DbConfigProperties.
Import DbConfig.

Lemma all_values_Forall (d : gmap string (option string)) :
  all (values d) = true ↔ map_Forall (λ _ v, truthy v = true) d.
Proof.
  rewrite map_Forall_to_list. unfold all, values.
  induction (map_to_list d) as [|[k v] kvs IH]; simpl.
  - split; [constructor | reflexivity].
  - rewrite andb_true_iff, Forall_cons, IH. reflexivity.
Qed.

(** [all] of the four values, entry by entry. *)
Lemma all_values_params (h u p d : option string) :
  all (values (<["database" := d]>
                 (<["password" := p]> (<["user" := u]> (<["host" := h]> ∅)))))
  = truthy h && truthy u && truthy p && truthy d.
Proof.
  apply eq_true_iff_eq. rewrite all_values_Forall.
  rewrite !map_Forall_insert, !andb_true_iff
    by (rewrite ?lookup_insert_ne by done; apply lookup_empty).
  pose proof (map_Forall_empty (M:=gmap string) (λ (_ : string) (v : option string), truthy v = true)).
  tauto.
Qed.

(** C9.  For every environment, [get_db_connection_params] returns a
    mapping with exactly the keys [host], [user], [password] and
    [database], each holding the value of its environment variable, so an
    entry is [None] exactly when its variable is unset; it returns the
    mapping in every case, and what it writes is at most the warning,
    which it writes whenever a variable is unset (or empty). *)
Theorem get_db_connection_params_returns_four_entries
    (env : environ) (stdout : list string) :
  let params := (get_db_connection_params env stdout).1 in
  let stdout' := (get_db_connection_params env stdout).2 in
  dom params = {[ "host"; "user"; "password"; "database" ]}
  ∧ params !! "host" = Some (getenv env "DB_HOST")
  ∧ params !! "user" = Some (getenv env "DB_USER")
  ∧ params !! "password" = Some (getenv env "DB_PASSWORD")
  ∧ params !! "database" = Some (getenv env "DB_NAME")
  ∧ (∀ key var,
       (key, var) ∈ [("host", "DB_HOST"); ("user", "DB_USER");
                     ("password", "DB_PASSWORD"); ("database", "DB_NAME")] →
       (params !! key = Some None ↔ env !! var = None))
  ∧ stdout' =
      (if forallb (λ var, truthy (getenv env var))
            ["DB_HOST"; "DB_USER"; "DB_PASSWORD"; "DB_NAME"]
       then stdout else stdout ++ [warning])
  ∧ (∀ var, var ∈ ["DB_HOST"; "DB_USER"; "DB_PASSWORD"; "DB_NAME"] →
       env !! var = None → stdout' = stdout ++ [warning]).
Proof.
  intros params stdout'.
  assert (Hhost : params !! "host" = Some (getenv env "DB_HOST")).
  { subst params. unfold get_db_connection_params. simpl.
    rewrite !lookup_insert_ne by done. apply lookup_insert_eq. }
  assert (Huser : params !! "user" = Some (getenv env "DB_USER")).
  { subst params. unfold get_db_connection_params. simpl.
    rewrite !lookup_insert_ne by done. apply lookup_insert_eq. }
  assert (Hpassword : params !! "password" = Some (getenv env "DB_PASSWORD")).
  { subst params. unfold get_db_connection_params. simpl.
    rewrite !lookup_insert_ne by done. apply lookup_insert_eq. }
  assert (Hdatabase : params !! "database" = Some (getenv env "DB_NAME")).
  { subst params. unfold get_db_connection_params. simpl. apply lookup_insert_eq. }
  assert (Hout : stdout' =
                 (if forallb (λ var, truthy (getenv env var))
                       ["DB_HOST"; "DB_USER"; "DB_PASSWORD"; "DB_NAME"]
                  then stdout else stdout ++ [warning])).
  { subst stdout'. unfold get_db_connection_params. cbn [snd forallb].
    rewrite all_values_params, andb_true_r, !andb_assoc.
    now destruct (_ && _ && _ && _). }
  split.
  { subst params. unfold get_db_connection_params. simpl.
    rewrite !dom_insert_L, dom_empty_L. set_solver. }
  do 4 (split; [assumption|]). split; [|split; [exact Hout|]].
  - intros key var Hin. unfold getenv in *.
    repeat (apply elem_of_cons in Hin as [[= -> ->]|Hin]);
      [rewrite Hhost | rewrite Huser | rewrite Hpassword | rewrite Hdatabase
      | now apply elem_of_nil in Hin];
      (split; [now intros [= ->] | now intros ->]).
  - intros var Hin Hunset. rewrite Hout. unfold getenv. cbn [forallb].
    repeat (apply elem_of_cons in Hin as [->|Hin]);
      [..|now apply elem_of_nil in Hin];
      rewrite Hunset; cbn [truthy andb]; rewrite ?andb_false_r; reflexivity.
Qed.

End DbConfigProperties.

(** ** The sales-report crew *)

Section SalesReportProperties.
Import CrewAI SalesReport.

Variable interpolate : string → list (string * string) → string.
Variable agent_execute :
  nat → Agent → string → string → list Tool → list string → option string.

(** The number of agent calls made before the crew is created. *)
Variable calls0 : nat.

(** The literal of the generation task's description ends at the three
    double quotes of the example it quotes, and the name [SELECT] follows
    it between the parentheses. *)
Lemma description_literal_is_followed_by_SELECT :
  task_python_db_query_description = UnexpectedName "SELECT".
Proof. vm_compute. reflexivity. Qed.


(** C8 (what the code does).  Importing the module raises a
    [SyntaxError], so that the caller gets no Report, whatever the
    query. *)
Theorem no_report_is_returned (query : string) :
  report_of (import_and_kickoff interpolate agent_execute query calls0).2 = None.
Proof.
  unfold import_and_kickoff.
  now rewrite description_literal_is_followed_by_SELECT.
Qed.

(** C7 (what the code does).  Importing the module raises a
    [SyntaxError]: the literal of the generation task's description ends
    at the three double quotes of the example it quotes, and the name
    [SELECT] follows it.  No call of [kickoff] takes place and no stage
    runs. *)
Theorem import_and_kickoff_raises_SyntaxError (query : string) :
  import_and_kickoff interpolate agent_execute query calls0
  = ([], ImportRaisesSyntaxError "SELECT").
Proof.
  unfold import_and_kickoff.
  assert (H : task_python_db_query_description = UnexpectedName "SELECT")
    by (vm_compute; reflexivity).
  now rewrite H.
Qed.

End SalesReportProperties.

(** ** The connection parameters on sample environments *)

Section OnSampleEnvironments.
Import DbConfig.

Example params_of_a_partial_environment :
  get_db_connection_params {[ "DB_HOST" := "localhost"; "DB_USER" := "root" ]} []
  = ({[ "host" := Some "localhost"; "user" := Some "root";
        "password" := None; "database" := None ]},
     [warning]).
Proof. vm_compute. reflexivity. Qed.

Example params_of_a_complete_environment :
  get_db_connection_params
    {[ "DB_HOST" := "localhost"; "DB_USER" := "root";
       "DB_PASSWORD" := "s3cret"; "DB_NAME" := "vendas" ]} []
  = ({[ "host" := Some "localhost"; "user" := Some "root";
        "password" := Some "s3cret"; "database" := Some "vendas" ]},
     []).
Proof. vm_compute. reflexivity. Qed.

End OnSampleEnvironments.

Section SetupDatabaseRows.
Import Py Eff SetupDatabase.

Variable fails : list event → option pyexc.
Variable exists_ : list event → string → bool.
Variable frame : list event → DataFrame.
Variable rowcount : list event → Z.
Variable strftime_date : cell → string + pyexc.
Variable to_dict : row → string.
Variable isinstance_mysql_Error : pyexc → bool.
Variable isinstance_EmptyDataError : pyexc → bool.

Hypothesis failures_are_catchable : ∀ h e, fails h = Some e → catchable e.
Hypothesis conversions_are_catchable : ∀ v e, strftime_date v = inr e → catchable e.

Local Abbreviation insert_row_ :=
  (insert_row fails rowcount strftime_date to_dict isinstance_mysql_Error).
Local Abbreviation insert_rows_ :=
  (insert_rows fails rowcount strftime_date to_dict isinstance_mysql_Error).

Lemma extend_nil (s : state) : extend s [] = s.
Proof. destruct s. unfold extend. cbn. now rewrite app_nil_r. Qed.

Lemma extend_extend (s : state) (a b : list event) :
  extend (extend s a) b = extend s (a ++ b).
Proof. unfold extend. cbn. now rewrite app_assoc. Qed.

Lemma row_errors_app (a b : list event) :
  row_errors (a ++ b) = row_errors a + row_errors b.
Proof. unfold row_errors. now rewrite List.filter_app, length_app. Qed.

Lemma executed_app (a b : list event) : executed (a ++ b) = executed a ++ executed b.
Proof. unfold executed. apply omap_app. Qed.

Lemma call_eq ev s :
  call fails ev s
  = match fails (trace s ++ [ev]) with
    | Some e => Raised e (extend s [ev])
    | None => Returned () (extend s [ev])
    end.
Proof. reflexivity. Qed.

Lemma print_eq line s : print line s = Returned () (extend s [Print line]).
Proof. reflexivity. Qed.

Lemma prefix_append (p x : string) : String.prefix p (p +:+ x) = true.
Proof.
  induction p as [|c p IH]; [now destruct x|].
  rewrite append_cons. cbn. now destruct (ascii_dec c c).
Qed.

(** A row that failed with an error that is caught and renders: two lines
    are printed and the counters stay. *)
Lemma row_failed_catchable index r counts e s :
  catchable e →
  ∃ l1 l2,
    row_failed to_dict isinstance_mysql_Error index r counts e s
    = Returned counts (extend s [Print l1; Print l2])
    ∧ is_row_error (Print l1) = true
    ∧ is_row_error (Print l2) = false.
Proof.
  intros [HE [msg Hmsg]]. unfold row_failed.
  destruct (isinstance_mysql_Error e).
  - eexists _, _. split; [|split].
    + unfold mbind, eff_bind, bind, print, emit, format. rewrite Hmsg. cbn.
      unfold extend. now rewrite <- app_assoc.
    + unfold is_row_error. now rewrite prefix_append.
    + reflexivity.
  - rewrite HE. eexists _, _. split; [|split].
    + unfold mbind, eff_bind, bind, print, emit, format. rewrite Hmsg. cbn.
      unfold extend. now rewrite <- app_assoc.
    + unfold is_row_error. rewrite (prefix_append "Erro inesperado ao processar linha ").
      apply orb_true_r.
    + reflexivity.
Qed.

Lemma insert_row_accounts index r counts s :
  ∃ counts' evs,
    insert_row_ index r counts s = Returned counts' (extend s evs)
    ∧ counts'.1 + counts'.2 + row_errors evs = S (counts.1 + counts.2)
    ∧ executed evs = option_list (prepared strftime_date r).
Proof.
  unfold insert_row, prepared.
  assert (Hexec : ∀ r',
    ∃ counts' evs,
      try_except
        (_ ← call fails (Execute insert_sql (Some (map r' table_columns)));
         h ← history;
         if (0 <? rowcount h)%Z
         then mret (S counts.1, counts.2) else mret (counts.1, S counts.2))
        [(λ _, true, row_failed to_dict isinstance_mysql_Error index r' counts)] s
      = Returned counts' (extend s evs)
      ∧ counts'.1 + counts'.2 + row_errors evs = S (counts.1 + counts.2)
      ∧ executed evs = [map r' table_columns]).
  { intros r'. unfold try_except, mbind, eff_bind, bind, history.
    rewrite call_eq. cbn [List.find fst snd].
    destruct (fails _) as [e|] eqn:Hf.
    - destruct (row_failed_catchable index r' counts e
                  (extend s [Execute insert_sql (Some (map r' table_columns))])
                  (failures_are_catchable _ _ Hf)) as (l1 & l2 & -> & H1 & H2).
      eexists _, _. split; [now rewrite extend_extend|].
      split; [|reflexivity].
      unfold row_errors. cbn [List.filter app]. rewrite H1, H2. cbn. lia.
    - destruct (0 <? rowcount _)%Z; eexists _, _;
        (split; [reflexivity|]); (split; [cbn; lia | reflexivity]). }
  destruct (r "Data da Venda") as [|d|x] eqn:Hd; try apply Hexec.
  destruct (strftime_date (COther x)) as [d|e] eqn:Hc; [apply Hexec|].
  destruct (row_failed_catchable index r counts e s
              (conversions_are_catchable _ _ Hc)) as (l1 & l2 & -> & H1 & H2).
  eexists _, _. split; [reflexivity|]. split; [|reflexivity].
  unfold row_errors. cbn [List.filter]. rewrite H1, H2. cbn. lia.
Qed.

Lemma insert_rows_accounts rs :
  ∀ index counts s,
    ∃ counts' evs,
      insert_rows_ index rs counts s = Returned counts' (extend s evs)
      ∧ counts'.1 + counts'.2 + row_errors evs = counts.1 + counts.2 + length rs
      ∧ executed evs = omap (prepared strftime_date) rs.
Proof.
  induction rs as [|r rs IH]; intros index counts s.
  - exists counts, []. rewrite extend_nil. cbn. split; [reflexivity|]. split; [lia|reflexivity].
  - cbn [insert_rows]. unfold mbind, eff_bind, bind.
    destruct (insert_row_accounts index r counts s) as (c1 & evs1 & -> & Hc1 & He1).
    destruct (IH (S index) c1 (extend s evs1)) as (c2 & evs2 & -> & Hc2 & He2).
    exists c2, (evs1 ++ evs2). rewrite extend_extend. split; [reflexivity|].
    rewrite row_errors_app, executed_app, He1, He2. split; [cbn [length]; lia|].
    cbn [omap list_omap]. now destruct (prepared strftime_date r).
Qed.

Local Abbreviation insert_data_from_csv_ :=
  (insert_data_from_csv fails exists_ frame rowcount strftime_date to_dict
     isinstance_mysql_Error isinstance_EmptyDataError).

Lemma find_none_of {A} (f : A → bool) (l : list A) :
  (∀ x, In x l → f x = false) → List.find f l = None.
Proof.
  induction l as [|a l IH]; [reflexivity|]. intros H. cbn.
  rewrite (H a (or_introl eq_refl)). apply IH. intros x Hx. apply H. now right.
Qed.

Lemma find_missing_column_None (cols : list string) :
  Forall (λ col, col ∈ cols) table_columns →
  List.find (λ col, negb (MiniPython.mem col cols)) table_columns = None.
Proof.
  intros Hall. apply find_none_of. intros col Hin.
  rewrite Forall_forall in Hall. specialize (Hall col).
  rewrite list_elem_of_In in Hall. specialize (Hall Hin).
  apply negb_false_iff. unfold MiniPython.mem. apply existsb_exists.
  exists col. split; [now apply list_elem_of_In | apply String.eqb_refl].
Qed.

(** What [insert_data_from_csv] adds around the loop over the rows. *)
Lemma insert_data_from_csv_around_the_rows csv_filepath s counts evs :
  exists_ (trace s) csv_filepath = true →
  fails (trace s ++ [ReadCsv csv_filepath]) = None →
  let df := frame (trace s ++ [ReadCsv csv_filepath]) in
  Forall (λ col, col ∈ columns df) table_columns →
  insert_rows_ 0 (rows df) (0, 0) (extend s [ReadCsv csv_filepath])
  = Returned counts (extend (extend s [ReadCsv csv_filepath]) evs) →
  insert_data_from_csv_ csv_filepath s
  = Returned () (extend s (ReadCsv csv_filepath :: evs
                           ++ [Print (summary counts.1 counts.2)])).
Proof.
  intros Hex Hread df Hcols Hloop.
  unfold insert_data_from_csv, try_except, mbind, eff_bind, bind, history.
  rewrite Hex. cbn [negb]. rewrite call_eq, Hread. cbn [trace extend].
  fold df. rewrite (find_missing_column_None _ Hcols).
  unfold mbind, eff_bind, bind. fold (extend s [ReadCsv csv_filepath]).
  rewrite Hloop, print_eq, !extend_extend. reflexivity.
Qed.

(** What [insert_data_from_csv] does when a column is missing. *)
Lemma insert_data_from_csv_missing_column csv_filepath s col :
  exists_ (trace s) csv_filepath = true →
  fails (trace s ++ [ReadCsv csv_filepath]) = None →
  List.find (λ col, negb (MiniPython.mem col
                            (columns (frame (trace s ++ [ReadCsv csv_filepath])))))
    table_columns = Some col →
  insert_data_from_csv_ csv_filepath s
  = Returned () (extend s [ReadCsv csv_filepath;
                           Print ("Erro: Coluna '" +:+ col
                                  +:+ "' esperada não encontrada no arquivo CSV '"
                                  +:+ csv_filepath +:+ "'.")]).
Proof.
  intros Hex Hread Hmissing.
  unfold insert_data_from_csv, try_except, mbind, eff_bind, bind, history.
  rewrite Hex. cbn [negb]. rewrite call_eq, Hread. cbn [trace extend].
  rewrite Hmissing, print_eq. unfold extend. cbn. now rewrite <- app_assoc.
Qed.


(** X6.  Three ways in which [insert_data_from_csv] gives up without an
    exception and without a single [INSERT]: the file is not there; the
    file is empty ([pd.errors.EmptyDataError]); a column of the table is
    missing from the frame, the first such column being named in the
    message. *)
Theorem insert_data_from_csv_gives_up_quietly csv_filepath s :
  (exists_ (trace s) csv_filepath = false →
   insert_data_from_csv_ csv_filepath s
   = Returned () (extend s [Print ("Erro: Arquivo CSV '" +:+ csv_filepath
                                   +:+ "' não encontrado.")]))
  ∧ (∀ e, exists_ (trace s) csv_filepath = true →
          fails (trace s ++ [ReadCsv csv_filepath]) = Some e →
          isinstance_EmptyDataError e = true →
          insert_data_from_csv_ csv_filepath s
          = Returned () (extend s [ReadCsv csv_filepath;
                                   Print ("Erro: O arquivo CSV '" +:+ csv_filepath
                                          +:+ "' está vazio.")]))
  ∧ (∀ col, exists_ (trace s) csv_filepath = true →
            fails (trace s ++ [ReadCsv csv_filepath]) = None →
            List.find (λ col, negb (MiniPython.mem col
                                      (columns (frame (trace s ++ [ReadCsv csv_filepath])))))
              table_columns = Some col →
            insert_data_from_csv_ csv_filepath s
            = Returned () (extend s [ReadCsv csv_filepath;
                                     Print ("Erro: Coluna '" +:+ col
                                            +:+ "' esperada não encontrada no arquivo CSV '"
                                            +:+ csv_filepath +:+ "'.")])).
Proof.
  split; [|split].
  - intros Hex.
    unfold insert_data_from_csv, try_except, mbind, eff_bind, bind, history.
    now rewrite Hex.
  - intros e Hex Hread Hempty.
    unfold insert_data_from_csv, try_except, mbind, eff_bind, bind, history.
    rewrite Hex. cbn [negb]. rewrite call_eq, Hread. cbn [List.find fst snd].
    rewrite Hempty. cbn [snd]. rewrite print_eq, extend_extend. reflexivity.
  - intros col. apply insert_data_from_csv_missing_column.
Qed.

End SetupDatabaseRows.

Section SetupDatabaseMain.
Import Py Eff SetupDatabase.

Variable fails : list event → option pyexc.
Variable exists_ : list event → string → bool.
Variable frame : list event → DataFrame.
Variable rowcount : list event → Z.
Variable is_connected : list event → bool.
Variable strftime_date : cell → string + pyexc.
Variable to_dict : row → string.
Variable isinstance_mysql_Error : pyexc → bool.
Variable isinstance_EmptyDataError : pyexc → bool.
Variable environ : gmap string string.

(** [mysql.connector.Error] derives from [Exception]. *)
Hypothesis mysql_Error_is_an_Exception :
  ∀ e, isinstance_mysql_Error e = true → isinstance_Exception e = true.

Local Abbreviation main_ :=
  (main fails exists_ frame rowcount is_connected strftime_date to_dict
     isinstance_mysql_Error isinstance_EmptyDataError environ).

Lemma params_all :
  DbConfig.all (DbConfig.values (DbConfig.get_db_connection_params environ []).1)
  = configured environ.
Proof.
  unfold DbConfig.get_db_connection_params. cbn [fst].
  rewrite all_values_params. unfold configured. cbn [forallb].
  now rewrite andb_true_r, !andb_assoc.
Qed.

Lemma params_printed :
  (DbConfig.get_db_connection_params environ []).2
  = if configured environ then [] else [DbConfig.warning].
Proof.
  pose proof params_all as H. unfold DbConfig.get_db_connection_params in *.
  cbn [fst snd] in *. rewrite H. now destruct (configured environ).
Qed.

Lemma getitem_params key var s :
  (key, var) ∈ [("host", "DB_HOST"); ("user", "DB_USER");
                ("password", "DB_PASSWORD"); ("database", "DB_NAME")] →
  getitem (DbConfig.get_db_connection_params environ []).1 key s
  = Returned (DbConfig.getenv environ var) s.
Proof.
  intros Hin. unfold getitem, DbConfig.get_db_connection_params. cbn [fst].
  repeat (apply elem_of_cons in Hin as [[= -> ->]|Hin]);
    [..|now apply elem_of_nil in Hin];
    rewrite ?lookup_insert_ne by done; now rewrite lookup_insert_eq.
Qed.

(** X7.  With a connection variable unset or empty, the main block prints
    the warning and the error, and leaves through [exit(1)]: it never
    tries to connect, and it has nothing to roll back or close. *)
Theorem main_stops_on_incomplete_configuration :
  configured environ = false →
  main_ initial
  = Raised (PyExc "SystemExit" false (StrReturns "1"))
      (extend initial
         [Print "Iniciando configuração do banco de dados...";
          Print DbConfig.warning;
          Print "Erro: Parâmetros de conexão com o banco de dados não estão totalmente configurados no arquivo .env.";
          Exit 1]).
Proof.
  intros Hcfg. unfold main.
  destruct (DbConfig.get_db_connection_params environ []) as [db_params printed] eqn:E.
  pose proof params_all as Hall. pose proof params_printed as Hprinted.
  rewrite E in Hall, Hprinted. cbn [fst snd] in Hall, Hprinted.
  rewrite Hcfg in Hall, Hprinted. subst printed.
  unfold try_finally, try_except, mbind, eff_bind, bind.
  rewrite Hall.
  cbv beta iota zeta delta
    [negb print_all mbind eff_bind bind exit raise print emit cursor_is_set
     connected mret eff_ret ret trace db_connection cursor initial app
     List.find fst snd andb extend].
  destruct (isinstance_mysql_Error _) eqn:Hm.
  - now apply mysql_Error_is_an_Exception in Hm.
  - reflexivity.
Qed.

Local Abbreviation insert_data_from_csv_ :=
  (insert_data_from_csv fails exists_ frame rowcount strftime_date to_dict
     isinstance_mysql_Error isinstance_EmptyDataError).

Ltac run_main :=
  cbv beta iota zeta delta
    [negb print_all mbind eff_bind bind exit raise print emit cursor_is_set
     connected mret eff_ret ret trace db_connection cursor initial
     List.find fst snd andb extend set_db_connection set_cursor call history
     create_vendas_table try_except try_finally format].

(** The main block when no call fails, the file is there and the load
    returns after the events [evs]. *)
Lemma main_when_the_load_returns (evs : list event) :
  configured environ = true →
  (∀ h, fails h = None) →
  (∀ h, exists_ h csv_file_path = true) →
  (∀ h, is_connected h = true) →
  let s1 := {| trace := opening environ; db_connection := true; cursor := true |} in
  insert_data_from_csv_ csv_file_path s1 = Returned () (extend s1 evs) →
  main_ initial
  = Returned () {| trace := opening environ ++ evs ++ committing ++ closing;
                   db_connection := true; cursor := true |}.
Proof.
  intros Hcfg Hok Hex Hconn s1 Hload. unfold main.
  destruct (DbConfig.get_db_connection_params environ []) as [db_params printed] eqn:E.
  pose proof params_all as Hall. pose proof params_printed as Hprinted.
  pose proof (λ key var s H, getitem_params key var s H) as Hget.
  rewrite E in Hall, Hprinted, Hget. cbn [fst snd] in Hall, Hprinted, Hget.
  rewrite Hcfg in Hall, Hprinted. subst printed.
  unfold try_finally, try_except, mbind, eff_bind, bind.
  rewrite Hall. run_main.
  rewrite (Hget "host" "DB_HOST"), (Hget "user" "DB_USER"),
    (Hget "password" "DB_PASSWORD"), (Hget "database" "DB_NAME")
    by (repeat constructor).
  rewrite !Hok, Hex. cbn [app].
  change (insert_data_from_csv fails exists_ frame rowcount strftime_date to_dict
            isinstance_mysql_Error isinstance_EmptyDataError csv_file_path _)
    with (insert_data_from_csv_ csv_file_path s1).
  rewrite Hload. subst s1. cbv beta iota delta [extend trace db_connection cursor].
  repeat (first [rewrite Hok | rewrite Hconn]; cbv beta iota).
  f_equal. f_equal.
  unfold committing, closing. rewrite <- !app_assoc. reflexivity.
Qed.


(** X9.  When the frame lacks a column of the table, the load prints
    which and inserts nothing, and the main block goes on as after a load:
    it commits and prints that the data were inserted and that the
    configuration succeeded. *)
Theorem main_reports_success_without_data (col : string) :
  configured environ = true →
  (∀ h, fails h = None) →
  (∀ h, exists_ h csv_file_path = true) →
  (∀ h, is_connected h = true) →
  List.find (λ col, negb (MiniPython.mem col
                            (columns (frame (opening environ ++ [ReadCsv csv_file_path])))))
    table_columns = Some col →
  main_ initial
  = Returned () {| trace := opening environ
                            ++ [ReadCsv csv_file_path;
                                Print ("Erro: Coluna '" +:+ col
                                       +:+ "' esperada não encontrada no arquivo CSV '"
                                       +:+ csv_file_path +:+ "'.")]
                            ++ committing ++ closing;
                   db_connection := true; cursor := true |}.
Proof.
  intros Hcfg Hok Hex Hconn Hmissing.
  apply main_when_the_load_returns; try assumption.
  apply (insert_data_from_csv_missing_column fails exists_ frame rowcount
           strftime_date to_dict isinstance_mysql_Error isinstance_EmptyDataError);
    [apply Hex | apply Hok | exact Hmissing].
Qed.

(** X10.  When [connect] raises a [mysql.connector.Error] that renders, the
    main block prints it and ends normally: the error goes no further,
    nothing is rolled back and nothing is closed, for there is no
    connection. *)
Theorem main_swallows_a_failed_connection (e : pyexc) (msg : string) :
  configured environ = true →
  fails [Print "Iniciando configuração do banco de dados...";
         Connect (DbConfig.getenv environ "DB_HOST") (DbConfig.getenv environ "DB_USER")
           (DbConfig.getenv environ "DB_PASSWORD") (DbConfig.getenv environ "DB_NAME")]
  = Some e →
  isinstance_mysql_Error e = true →
  exc_str e = StrReturns msg →
  main_ initial
  = Returned ()
      (extend initial
         [Print "Iniciando configuração do banco de dados...";
          Connect (DbConfig.getenv environ "DB_HOST") (DbConfig.getenv environ "DB_USER")
            (DbConfig.getenv environ "DB_PASSWORD") (DbConfig.getenv environ "DB_NAME");
          Print ("Erro de banco de dados durante a configuração: " +:+ msg)]).
Proof.
  intros Hcfg Hfail Hmysql Hmsg. unfold main.
  destruct (DbConfig.get_db_connection_params environ []) as [db_params printed] eqn:E.
  pose proof params_all as Hall. pose proof params_printed as Hprinted.
  pose proof (λ key var s H, getitem_params key var s H) as Hget.
  rewrite E in Hall, Hprinted, Hget. cbn [fst snd] in Hall, Hprinted, Hget.
  rewrite Hcfg in Hall, Hprinted. subst printed.
  unfold try_finally, try_except, mbind, eff_bind, bind.
  rewrite Hall. run_main.
  rewrite (Hget "host" "DB_HOST"), (Hget "user" "DB_USER"),
    (Hget "password" "DB_PASSWORD"), (Hget "database" "DB_NAME")
    by (repeat constructor).
  cbn [app]. rewrite Hfail, Hmysql, Hmsg. reflexivity.
Qed.

End SetupDatabaseMain.

(** ** The order of the calls of setup_database.py *)

Section SetupDatabaseOrder.
Import Py Eff SetupDatabase.
Local Open Scope nat_scope.

Variable fails : list event → option pyexc.
Variable exists_ : list event → string → bool.
Variable frame : list event → DataFrame.
Variable rowcount : list event → Z.
Variable is_connected : list event → bool.
Variable strftime_date : cell → string + pyexc.
Variable to_dict : row → string.
Variable isinstance_mysql_Error : pyexc → bool.
Variable isinstance_EmptyDataError : pyexc → bool.
Variable environ : gmap string string.

Lemma next_stage_mono n m : n ≤ m → next_stage n ≤ next_stage m.
Proof.
  unfold next_stage. intros H.
  destruct (Nat.eqb_spec n 3), (Nat.eqb_spec m 3); lia.
Qed.

Lemma within_weaken evs : ∀ lo hi lo' hi',
  within lo hi evs = true → lo' ≤ lo → hi ≤ hi' → within lo' hi' evs = true.
Proof.
  induction evs as [|ev evs IH]; intros lo hi lo' hi' H Hlo Hhi; [reflexivity|].
  cbn [within] in *. destruct (stage ev) as [n|]; [|now apply (IH lo hi)].
  apply andb_prop in H as [[H1 H2]%andb_prop H3].
  apply Nat.leb_le in H1, H2.
  rewrite (IH _ _ (next_stage n) hi' H3) by lia.
  rewrite andb_true_r. apply andb_true_intro. split; apply Nat.leb_le; lia.
Qed.

Lemma within_app e1 : ∀ lo b b' hi e2,
  within lo b e1 = true → within b' hi e2 = true →
  lo ≤ b' → next_stage b ≤ b' → b ≤ hi →
  within lo hi (e1 ++ e2) = true.
Proof.
  induction e1 as [|ev e1 IH]; intros lo b b' hi e2 H1 H2 Hlo Hnext Hhi.
  - now apply (within_weaken e2 b' hi).
  - cbn [within app] in *. destruct (stage ev) as [n|]; [|now apply (IH lo b b')].
    apply andb_prop in H1 as [[Ha Hb]%andb_prop Hc].
    apply Nat.leb_le in Ha, Hb.
    pose proof (next_stage_mono n b Hb).
    rewrite (IH (next_stage n) b b' hi e2 Hc H2) by lia.
    rewrite andb_true_r. apply andb_true_intro. split; apply Nat.leb_le; lia.
Qed.

Lemma emits_weaken {A} (m : eff state A) lo hi lo' hi' :
  emits lo hi m → lo' ≤ lo → hi ≤ hi' → emits lo' hi' m.
Proof.
  intros H Hlo Hhi s. destruct (H s) as (evs & Ht & Hw).
  exists evs. split; [assumption|]. now apply (within_weaken evs lo hi).
Qed.

(** Steps that add no call. *)
Lemma emits_still {A} (m : eff state A) lo hi :
  (∀ s, trace (final (m s)) = trace s) → emits lo hi m.
Proof. intros H s. exists []. now rewrite H, app_nil_r. Qed.

Lemma emits_print line lo hi : emits lo hi (print line).
Proof. intros s. now exists [Print line]. Qed.

Lemma emits_call ev n :
  stage ev = Some n → emits n n (call fails ev).
Proof.
  intros Hn s. exists [ev]. split.
  - unfold call. now destruct (fails _).
  - cbn. now rewrite Hn, !Nat.leb_refl.
Qed.

Lemma emits_bind {A B} (m : eff state A) (k : A → eff state B) lo b b' hi :
  emits lo b m → (∀ a, emits b' hi (k a)) →
  lo ≤ b' → next_stage b ≤ b' → b ≤ hi →
  emits lo hi (m ≫= k).
Proof.
  intros Hm Hk Hlo Hnext Hhi s. unfold mbind, eff_bind, bind.
  destruct (Hm s) as (e1 & Ht1 & Hw1).
  destruct (m s) as [a s1|e s1]; cbn [final] in *.
  - destruct (Hk a s1) as (e2 & Ht2 & Hw2). exists (e1 ++ e2). split.
    + now rewrite Ht2, Ht1, app_assoc.
    + now apply (within_app e1 lo b b').
  - exists e1. split; [assumption|]. now apply (within_weaken e1 lo b).
Qed.

Lemma within_quiet_app e1 e2 lo hi :
  Forall (λ ev, stage ev = None) e1 →
  within lo hi e2 = true → within lo hi (e1 ++ e2) = true.
Proof.
  induction 1 as [|ev e1 Hev _ IH]; intros H2; [assumption|].
  cbn [within app]. rewrite Hev. now apply IH.
Qed.

(** A step that only prints, or adds nothing: the rest goes on from the
    same stage. *)
Lemma emits_then {A B} (m : eff state A) (k : A → eff state B) lo hi :
  (∀ s, ∃ evs, trace (final (m s)) = trace s ++ evs
               ∧ Forall (λ ev, stage ev = None) evs) →
  (∀ a, emits lo hi (k a)) →
  emits lo hi (m ≫= k).
Proof.
  intros Hm Hk s. unfold mbind, eff_bind, bind.
  destruct (Hm s) as (e1 & Ht1 & Hq).
  pose proof (λ e2, within_quiet_app e1 e2 lo hi Hq) as Hpre.
  destruct (m s) as [a s1|e s1]; cbn [final] in *.
  - destruct (Hk a s1) as (e2 & Ht2 & Hw2). exists (e1 ++ e2). split.
    + now rewrite Ht2, Ht1, app_assoc.
    + now apply Hpre.
  - exists e1. split; [assumption|].
    rewrite <- (app_nil_r e1). now apply Hpre.
Qed.

Lemma quiet_still {A} (m : eff state A) :
  (∀ s, trace (final (m s)) = trace s) →
  ∀ s, ∃ evs, trace (final (m s)) = trace s ++ evs
              ∧ Forall (λ ev, stage ev = None) evs.
Proof. intros H s. exists []. now rewrite H, app_nil_r. Qed.

Lemma quiet_print line :
  ∀ s, ∃ evs, trace (final (print line s)) = trace s ++ evs
              ∧ Forall (λ ev, stage ev = None) evs.
Proof. intros s. exists [Print line]. split; [reflexivity|]. now repeat constructor. Qed.

Lemma emits_try_except {A} (body : eff state A) clauses lo b b' hi :
  emits lo b body →
  (∀ c e, In c clauses → emits b' hi (c.2 e : eff state A)) →
  lo ≤ b' → next_stage b ≤ b' → b ≤ hi →
  emits lo hi (try_except body clauses).
Proof.
  intros Hbody Hc Hlo Hnext Hhi s. unfold try_except.
  destruct (Hbody s) as (e1 & Ht1 & Hw1).
  destruct (body s) as [a s1|e s1]; cbn [final] in *.
  - exists e1. split; [assumption|]. now apply (within_weaken e1 lo b).
  - destruct (List.find _ clauses) as [c|] eqn:Hfind.
    + apply find_some in Hfind as [Hin _].
      destruct (Hc c e Hin s1) as (e2 & Ht2 & Hw2). exists (e1 ++ e2). split.
      * now rewrite Ht2, Ht1, app_assoc.
      * now apply (within_app e1 lo b b').
    + exists e1. split; [assumption|]. now apply (within_weaken e1 lo b).
Qed.

Lemma emits_try_finally {A} (body : eff state A) cleanup lo b b' hi :
  emits lo b body → emits b' hi cleanup →
  lo ≤ b' → next_stage b ≤ b' → b ≤ hi →
  emits lo hi (try_finally body cleanup).
Proof.
  intros Hbody Hclean Hlo Hnext Hhi s. unfold try_finally.
  destruct (Hbody s) as (e1 & Ht1 & Hw1).
  destruct (body s) as [a s1|e s1]; cbn [final] in *;
    destruct (Hclean s1) as (e2 & Ht2 & Hw2);
    destruct (cleanup s1) as [u s2|e' s2]; cbn [final] in *;
    exists (e1 ++ e2);
    (split; [now rewrite Ht2, Ht1, app_assoc | now apply (within_app e1 lo b b')]).
Qed.

Lemma emits_emit ev n : stage ev = Some n → emits n n (emit ev).
Proof.
  intros Hn s. exists [ev]. split; [reflexivity|].
  cbn. now rewrite Hn, !Nat.leb_refl.
Qed.

Ltac still_tac :=
  let s := fresh "s" in
  intros s;
  cbv [format getitem history set_db_connection set_cursor connected
       cursor_is_set mret eff_ret ret raise];
  repeat match goal with
         | |- context [match ?x with _ => _ end] => destruct x
         end;
  reflexivity.

Ltac emits_step :=
  lazymatch goal with
  | |- emits _ _ (mbind _ (print _)) =>
      apply emits_then; [apply quiet_print | intros ?]
  | |- emits _ _ (mbind _ (call _ _)) => fail
  | |- emits _ _ (mbind _ (if _ then _ else _)) => fail
  | |- emits _ _ (mbind _ _) =>
      apply emits_then; [apply quiet_still; still_tac | intros ?]
  | |- emits _ _ (print _) => apply emits_print
  | |- emits _ _ (if ?c then _ else _) => destruct c
  | |- emits _ _ _ => apply emits_still; still_tac
  end.

Ltac call_step n :=
  eapply (emits_bind _ _ _ n (next_stage n) _);
  [ eapply emits_weaken; [apply (emits_call _ n); reflexivity | cbn; lia | cbn; lia]
  | intros ?
  | cbn; lia | cbn; lia | cbn; lia ].

Lemma create_vendas_table_emits :
  emits 3 3 (create_vendas_table fails isinstance_mysql_Error).
Proof.
  unfold create_vendas_table.
  apply (emits_try_except _ _ 3 3 3 3); [| |cbn; lia..].
  - call_step 3. emits_step.
  - intros c e [<-|[]]. cbn [snd]. repeat emits_step.
Qed.

Lemma row_failed_emits index r counts e :
  emits 3 3 (row_failed to_dict isinstance_mysql_Error index r counts e).
Proof. unfold row_failed. repeat emits_step. Qed.

Lemma insert_row_emits index r counts :
  emits 3 3 (insert_row fails rowcount strftime_date to_dict
               isinstance_mysql_Error index r counts).
Proof.
  unfold insert_row.
  assert (Hexec : ∀ r',
    emits 3 3
      (try_except
         (_ ← call fails (Execute insert_sql (Some (map r' table_columns)));
          h ← history;
          if (0 <? rowcount h)%Z
          then mret (S counts.1, counts.2) else mret (counts.1, S counts.2))
         [(λ _, true, row_failed to_dict isinstance_mysql_Error index r' counts)])).
  { intros r'. apply (emits_try_except _ _ 3 3 3 3); [| |cbn; lia..].
    - call_step 3. repeat emits_step.
    - intros c e [<-|[]]. apply row_failed_emits. }
  destruct (r "Data da Venda"); try apply Hexec.
  destruct (strftime_date _); [apply Hexec | apply row_failed_emits].
Qed.

Lemma insert_rows_emits rs :
  ∀ index counts,
    emits 3 3 (insert_rows fails rowcount strftime_date to_dict
                 isinstance_mysql_Error index rs counts).
Proof.
  induction rs as [|r rs IH]; intros index counts; cbn [insert_rows].
  - emits_step.
  - apply (emits_bind _ _ 3 3 3 3); [apply insert_row_emits | intros; apply IH | cbn; lia..].
Qed.

Lemma insert_data_from_csv_emits csv_filepath :
  emits 3 3 (insert_data_from_csv fails exists_ frame rowcount strftime_date to_dict
               isinstance_mysql_Error isinstance_EmptyDataError csv_filepath).
Proof.
  unfold insert_data_from_csv.
  apply (emits_try_except _ _ 3 3 3 3); [| |cbn; lia..].
  - emits_step. emits_step; [emits_step|].
    call_step 3. emits_step.
    destruct (List.find _ table_columns); [emits_step|].
    apply (emits_bind _ _ 3 3 3 3); [apply insert_rows_emits | intros; emits_step | cbn; lia..].
  - intros c e [<-|[<-|[]]]; cbn [snd]; repeat emits_step.
Qed.

(** X11.  Whatever the database, the file system and the data do, the
    calls of a run of the main block come in this order: [exit], [connect],
    [cursor], the statements, [commit], [rollback], [cursor.close],
    [close]; each of them at most once, except the statements.  So no
    statement is executed after a commit or a rollback, nothing is done on
    a cursor or a connection after it is closed, and the cursor is closed
    before the connection. *)
Theorem main_calls_in_order :
  in_order (trace (final (main fails exists_ frame rowcount is_connected
                            strftime_date to_dict isinstance_mysql_Error
                            isinstance_EmptyDataError environ initial)))
  = true.
Proof.
  assert (H : emits 0 7 (main fails exists_ frame rowcount is_connected
                           strftime_date to_dict isinstance_mysql_Error
                           isinstance_EmptyDataError environ)).
  { unfold main.
    destruct (DbConfig.get_db_connection_params environ []) as [db_params printed].
    apply (emits_try_finally _ _ 0 5 6 7); [| |cbn; lia..].
    - apply (emits_try_except _ _ 0 4 5 5); [| |cbn; lia..].
      + emits_step.
        apply emits_then.
        { clear. induction printed as [|l ls IH]; intros s.
          - exists []. cbn. now rewrite app_nil_r.
          - destruct (IH (extend s [Print l])) as (evs & Ht & Hq).
            exists (Print l :: evs). split.
            + change (print_all (l :: ls) s) with (print_all ls (extend s [Print l])).
              rewrite Ht. cbn. now rewrite <- app_assoc.
            + now constructor. }
        intros _.
        apply (emits_bind _ _ 0 0 1 4); [|intros _|cbn; lia..].
        { destruct (negb _); [|emits_step].
          emits_step. unfold exit.
          apply (emits_bind _ _ 0 0 1 0);
            [apply (emits_emit _ 0); reflexivity | intros; emits_step | cbn; lia..]. }
        do 4 emits_step.
        call_step 1. emits_step. call_step 2. emits_step. emits_step.
        apply (emits_bind _ _ 3 3 3 4);
          [apply create_vendas_table_emits | intros _ | cbn; lia..].
        emits_step.
        apply (emits_bind _ _ 3 4 5 4); [|intros _; emits_step|cbn; lia..].
        destruct (negb _); [emits_step|].
        emits_step.
        apply (emits_bind _ _ 3 3 3 4);
          [apply insert_data_from_csv_emits | intros _ | cbn; lia..].
        call_step 4. emits_step.
      + intros c e [<-|[<-|[]]]; cbn [snd].
        * do 4 emits_step; [|emits_step].
          call_step 5. emits_step.
        * do 4 emits_step; [|emits_step].
          call_step 5. emits_step.
    - emits_step.
      apply (emits_bind _ _ 6 6 7 7); [|intros _|cbn; lia..].
      { emits_step; [|emits_step]. call_step 6. emits_step. }
      do 2 emits_step; [|emits_step]. call_step 7. emits_step. }
  destruct (H initial) as (evs & Ht & Hw). now rewrite Ht.
Qed.

End SetupDatabaseOrder.

(** ** setup_database.py on sample worlds *)

Section SetupDatabaseOnSamples.
Import Py Eff SetupDatabase.

Lemma refuses_V4_catchable h e : refuses_V4 h = Some e → catchable e.
Proof.
  unfold refuses_V4. destruct (last h) as [ev|]; [|discriminate].
  destruct (inserts_id "V4" ev); [|discriminate].
  intros [= <-]. split; [reflexivity|]. now eexists.
Qed.

Lemma sample_strftime_date_catchable v e :
  sample_strftime_date v = inr e → catchable e.
Proof.
  intros H.
  assert (He : e = TypeError "<class 'bool'> is not convertible to datetime").
  { unfold sample_strftime_date in H.
    repeat match type of H with
           | context [match ?x with _ => _ end] => destruct x
           end; congruence. }
  subst e. split; [reflexivity|]. now eexists.
Qed.

Lemma sample_mysql_Error_is_an_Exception e :
  sample_isinstance_mysql_Error e = true → isinstance_Exception e = true.
Proof. destruct e as [cls d m]. cbn. now destruct d. Qed.

Lemma table_columns_in_sample_frame :
  Forall (λ col, col ∈ columns sample_frame) table_columns.
Proof. apply Forall_forall. auto. Qed.


Lemma insert_data_from_csv_gives_up_quietly_witness :
  insert_data_from_csv (λ _, None) (λ _ _, false) (λ _, sample_frame) sample_rowcount
    sample_strftime_date sample_to_dict sample_isinstance_mysql_Error
    sample_isinstance_EmptyDataError "vendas.csv" initial
  = Returned () (extend initial [Print "Erro: Arquivo CSV 'vendas.csv' não encontrado."])
  ∧ insert_data_from_csv empty_file (λ _ _, true) (λ _, sample_frame) sample_rowcount
      sample_strftime_date sample_to_dict sample_isinstance_mysql_Error
      sample_isinstance_EmptyDataError "vendas.csv" initial
    = Returned () (extend initial [ReadCsv "vendas.csv";
                                   Print "Erro: O arquivo CSV 'vendas.csv' está vazio."])
  ∧ insert_data_from_csv (λ _, None) (λ _ _, true) (λ _, short_frame) sample_rowcount
      sample_strftime_date sample_to_dict sample_isinstance_mysql_Error
      sample_isinstance_EmptyDataError "vendas.csv" initial
    = Returned () (extend initial [ReadCsv "vendas.csv";
                                   Print "Erro: Coluna 'ID do Cliente' esperada não encontrada no arquivo CSV 'vendas.csv'."]).
Proof.
  split; [|split].
  - exact (proj1 (insert_data_from_csv_gives_up_quietly
                    (λ _, None) (λ _ _, false) (λ _, sample_frame) sample_rowcount
                    sample_strftime_date sample_to_dict sample_isinstance_mysql_Error
                    sample_isinstance_EmptyDataError "vendas.csv" initial) eq_refl).
  - exact (proj1 (proj2 (insert_data_from_csv_gives_up_quietly
                    empty_file (λ _ _, true) (λ _, sample_frame) sample_rowcount
                    sample_strftime_date sample_to_dict sample_isinstance_mysql_Error
                    sample_isinstance_EmptyDataError "vendas.csv" initial))
             EmptyDataError eq_refl eq_refl eq_refl).
  - exact (proj2 (proj2 (insert_data_from_csv_gives_up_quietly
                    (λ _, None) (λ _ _, true) (λ _, short_frame) sample_rowcount
                    sample_strftime_date sample_to_dict sample_isinstance_mysql_Error
                    sample_isinstance_EmptyDataError "vendas.csv" initial))
             "ID do Cliente" eq_refl eq_refl eq_refl).
Defined.

Lemma main_stops_on_incomplete_configuration_witness :
  configured partial_environ = false
  ∧ main (λ _, None) (λ _ _, true) (λ _, sample_frame) sample_rowcount (λ _, true)
      sample_strftime_date sample_to_dict sample_isinstance_mysql_Error
      sample_isinstance_EmptyDataError partial_environ initial
    = Raised (PyExc "SystemExit" false (StrReturns "1"))
        (extend initial
           [Print "Iniciando configuração do banco de dados...";
            Print DbConfig.warning;
            Print "Erro: Parâmetros de conexão com o banco de dados não estão totalmente configurados no arquivo .env.";
            Exit 1]).
Proof.
  assert (H : configured partial_environ = false) by (vm_compute; reflexivity).
  split; [exact H|].
  exact (main_stops_on_incomplete_configuration
           (λ _, None) (λ _ _, true) (λ _, sample_frame) sample_rowcount (λ _, true)
           sample_strftime_date sample_to_dict sample_isinstance_mysql_Error
           sample_isinstance_EmptyDataError partial_environ
           sample_mysql_Error_is_an_Exception H).
Defined.


Lemma main_reports_success_without_data_witness :
  main (λ _, None) (λ _ _, true) (λ _, short_frame) sample_rowcount (λ _, true)
    sample_strftime_date sample_to_dict sample_isinstance_mysql_Error
    sample_isinstance_EmptyDataError sample_environ initial
  = Returned () {| trace := opening sample_environ
                            ++ [ReadCsv csv_file_path;
                                Print ("Erro: Coluna 'ID do Cliente' esperada não encontrada no arquivo CSV '"
                                       +:+ csv_file_path +:+ "'.")]
                            ++ committing ++ closing;
                   db_connection := true; cursor := true |}.
Proof.
  assert (H : configured sample_environ = true) by (vm_compute; reflexivity).
  exact (main_reports_success_without_data
           (λ _, None) (λ _ _, true) (λ _, short_frame) sample_rowcount (λ _, true)
           sample_strftime_date sample_to_dict sample_isinstance_mysql_Error
           sample_isinstance_EmptyDataError sample_environ "ID do Cliente"
           H (λ _, eq_refl) (λ _, eq_refl) (λ _, eq_refl) eq_refl).
Defined.

Lemma main_swallows_a_failed_connection_witness :
  main refuses_connections (λ _ _, true) (λ _, sample_frame) sample_rowcount (λ _, false)
    sample_strftime_date sample_to_dict sample_isinstance_mysql_Error
    sample_isinstance_EmptyDataError sample_environ initial
  = Returned ()
      (extend initial
         [Print "Iniciando configuração do banco de dados...";
          Connect (Some "localhost") (Some "root") (Some "s3cret") (Some "vendas");
          Print "Erro de banco de dados durante a configuração: 2003: Can't connect to MySQL server"]).
Proof.
  assert (H : configured sample_environ = true) by (vm_compute; reflexivity).
  assert (Hh : DbConfig.getenv sample_environ "DB_HOST" = Some "localhost")
    by (vm_compute; reflexivity).
  assert (Hu : DbConfig.getenv sample_environ "DB_USER" = Some "root")
    by (vm_compute; reflexivity).
  assert (Hp : DbConfig.getenv sample_environ "DB_PASSWORD" = Some "s3cret")
    by (vm_compute; reflexivity).
  assert (Hd : DbConfig.getenv sample_environ "DB_NAME" = Some "vendas")
    by (vm_compute; reflexivity).
  rewrite <- Hh, <- Hu, <- Hp, <- Hd.
  exact (main_swallows_a_failed_connection
           refuses_connections (λ _ _, true) (λ _, sample_frame) sample_rowcount
           (λ _, false) sample_strftime_date sample_to_dict
           sample_isinstance_mysql_Error sample_isinstance_EmptyDataError
           sample_environ InterfaceError "2003: Can't connect to MySQL server"
           H eq_refl eq_refl eq_refl).
Defined.

End SetupDatabaseOnSamples.

(** ** The sender *)

Section SendSandecoProperties.
Import Py Eff App.

Variable fails : list event → option pyexc.
Variable returns : list event → pyobj.
Variable exists_ : list event → string → bool.

(** X12.  None of the five methods that send a file reaches the message
    service for a file that is not there: each raises [FileNotFoundError]
    with the message that names the file, and no call has been made.
    [audioBase64], which has no such check, hands the file to the service
    whether it is there or not. *)
Theorem media_methods_check_the_file_first
    (self : SendSandeco) (number caption : pyobj) (file : string) (s : state) :
  exists_ (trace s) file = false →
  Forall (λ method : eff state pyobj, method s = Raised (FileNotFoundError file) s)
    [PDF fails returns exists_ self number file caption;
     audio fails returns exists_ self number file;
     image fails returns exists_ self number file caption;
     video fails returns exists_ self number file caption;
     document fails returns exists_ self number file caption]
  ∧ trace (final (audioBase64 fails returns self number file s))
    = trace s ++ [SendWhatsappAudio (evo_instance_id self)
                    [("number", number); ("mediatype", PyStr "audio");
                     ("mimetype", PyStr "audio/mpeg"); ("caption", PyStr "")]
                    (evo_instance_token self) file].
Proof.
  intros Hex. split.
  - repeat constructor;
      unfold PDF, audio, image, video, document, mbind, eff_bind, bind, history;
      now rewrite Hex.
  - unfold audioBase64, mbind, eff_bind, bind, call. cbn.
    now destruct (fails _).
Qed.

End SendSandecoProperties.

(** ** The webhook *)

Section WebhookProperties.
Import Py Eff App.

Variable fails : list event → option pyexc.
Variable returns : list event → pyobj.
Variable exists_ : list event → string → bool.
Variable getenv : list event → string → option string.
Variable phone : pyobj → pyobj.
Variable message_type : pyobj → pyobj.
Variable TYPE_TEXT : pyobj.
Variable TYPE_AUDIO : pyobj.
Variable py_eq : pyobj → pyobj → bool.

Local Abbreviation init_ := (__init__ fails returns getenv).
Local Abbreviation audio_ := (audio fails returns exists_).
Local Abbreviation webhook_try_ :=
  (webhook_try fails returns exists_ getenv phone message_type TYPE_TEXT TYPE_AUDIO py_eq).
Local Abbreviation webhook_except_ := (webhook_except fails returns getenv phone).
Local Abbreviation webhook_ :=
  (webhook fails returns exists_ getenv phone message_type TYPE_TEXT TYPE_AUDIO py_eq).

Lemma extend_by_nothing (s : state) : extend s [] = s.
Proof. destruct s. unfold extend. cbn. now rewrite app_nil_r. Qed.

Lemma extend_twice (s : state) (a b : list event) :
  extend (extend s a) b = extend s (a ++ b).
Proof. unfold extend. cbn. now rewrite app_assoc. Qed.

Lemma hasattr_text : hasattr "text" = false.
Proof. reflexivity. Qed.

(** *** What a computation adds *)

Lemma adds_still {A} (P : event → Prop) (m : eff state A) :
  (∀ s, trace (final (m s)) = trace s) → adds P m.
Proof. intros H s. exists []. now rewrite H, app_nil_r. Qed.

Lemma adds_print (P : event → Prop) line : P (Print line) → adds P (print line).
Proof. intros H s. exists [Print line]. split; [reflexivity|]. now repeat constructor. Qed.

Lemma adds_call (P : event → Prop) ev : P ev → adds P (call fails returns ev).
Proof.
  intros H s. exists [ev]. split.
  - unfold call. now destruct (fails _).
  - now repeat constructor.
Qed.

Lemma adds_bind {A B} (P : event → Prop) (m : eff state A) (k : A → eff state B) :
  adds P m → (∀ a, adds P (k a)) → adds P (m ≫= k).
Proof.
  intros Hm Hk s. unfold mbind, eff_bind, bind.
  destruct (Hm s) as (e1 & Ht1 & H1).
  destruct (m s) as [a s1|e s1]; cbn [final] in *.
  - destruct (Hk a s1) as (e2 & Ht2 & H2). exists (e1 ++ e2). split.
    + now rewrite Ht2, Ht1, app_assoc.
    + now apply Forall_app.
  - now exists e1.
Qed.

Lemma adds_bind_raises {A B} (P : event → Prop) (m : eff state A) (k : A → eff state B) :
  adds P m → (∀ s, ∃ e s', m s = Raised e s') → adds P (m ≫= k).
Proof.
  intros Hm Hr s. unfold mbind, eff_bind, bind.
  destruct (Hm s) as (e1 & Ht1 & H1). destruct (Hr s) as (e & s' & Hs).
  rewrite Hs in *. now exists e1.
Qed.

Lemma adds_try_except {A} (P : event → Prop) (body : eff state A) clauses :
  adds P body →
  (∀ c e, In c clauses → adds P (c.2 e : eff state A)) →
  adds P (try_except body clauses).
Proof.
  intros Hbody Hc s. unfold try_except.
  destruct (Hbody s) as (e1 & Ht1 & H1).
  destruct (body s) as [a s1|e s1]; cbn [final] in *.
  - now exists e1.
  - destruct (List.find _ clauses) as [c|] eqn:Hfind.
    + apply find_some in Hfind as [Hin _].
      destruct (Hc c e Hin s1) as (e2 & Ht2 & H2). exists (e1 ++ e2). split.
      * now rewrite Ht2, Ht1, app_assoc.
      * now apply Forall_app.
    + now exists e1.
Qed.

Ltac still_tac :=
  let s := fresh "s" in
  intros s;
  cbv [format getattr history set_msg load_msg mret eff_ret ret raise];
  repeat match goal with
         | |- context [match ?x with _ => _ end] => destruct x
         | |- context [if ?x then _ else _] => destruct x
         end;
  reflexivity.

Ltac adds_step :=
  lazymatch goal with
  | |- adds _ (mbind _ _) => apply adds_bind; [|intros ?]
  | |- adds _ (print _) => apply adds_print; cbn; try exact I
  | |- adds _ (call _ _ _) => apply adds_call; cbn; try exact I
  | |- adds _ (if ?c then _ else _) => destruct c eqn:?
  | |- adds _ (match ?c with _ => _ end) => destruct c eqn:?
  | |- adds _ _ => apply adds_still; still_tac
  end.

Lemma init_adds (P : event → Prop) :
  P LoadDotenv → (∀ b t, P (NewEvolutionClient b t)) → adds P init_.
Proof.
  intros H1 H2. unfold __init__.
  apply adds_bind; [now apply adds_call|intros _].
  apply adds_bind; [apply adds_still; still_tac|intros h].
  apply adds_bind; [now apply adds_call|intros _].
  apply adds_still; still_tac.
Qed.


(** *** The paths of a run *)

Lemma call_Returned ev s v s' :
  call fails returns ev s = Returned v s' → s' = extend s [ev].
Proof. unfold call. destruct (fails _); [discriminate|]. now intros [= _ <-]. Qed.

Lemma init_Returned s send s1 :
  init_ s = Returned send s1 →
  s1 = extend s [LoadDotenv; NewEvolutionClient (evo_base_url send) (evo_api_token send)].
Proof.
  unfold __init__, mbind, eff_bind, bind, history, call. cbn.
  destruct (fails (trace s ++ [LoadDotenv])); [discriminate|].
  destruct (fails _); [discriminate|].
  intros [= <- <-]. unfold extend. cbn. now rewrite <- app_assoc.
Qed.

(** The [except] clause never ends normally: the message fails to
    render, or the sender cannot be built, or the lookup of [send.text]
    raises. *)
Lemma webhook_except_raises e s :
  ∃ e' evs,
    webhook_except_ e s = Raised e' (extend s evs)
    ∧ Forall (λ ev, is_send ev = false ∧ is_pipeline ev = false) evs.
Proof.
  unfold webhook_except, __init__, getattr, format, mbind, eff_bind, bind, history.
  rewrite hasattr_text.
  destruct (exc_str e) as [text|e1].
  - cbn. unfold call. cbn.
    destruct (fails _) as [e1|].
    + exists e1, [Print ("Error occurred: " +:+ text); LoadDotenv]. split.
      * unfold extend. now rewrite <- app_assoc.
      * now repeat constructor.
    + cbn. destruct (fails _) as [e1|]; cbv [mret eff_ret ret raise]; cbn;
        eexists _, [_; _; _];
        (split; [unfold extend; rewrite <- !app_assoc; reflexivity
                | now repeat constructor]).
  - exists e1, []. now rewrite extend_by_nothing.
Qed.

Lemma webhook_except_AttributeError e s text :
  exc_str e = StrReturns text →
  let h := trace s ++ [Print ("Error occurred: " +:+ text); LoadDotenv] in
  let client := NewEvolutionClient (getenv h "EVO_BASE_URL") (getenv h "EVO_API_TOKEN") in
  fails h = None →
  fails (h ++ [client]) = None →
  webhook_except_ e s
  = Raised (AttributeError "text")
      (extend s [Print ("Error occurred: " +:+ text); LoadDotenv; client]).
Proof.
  intros Htext h client H1 H2. subst h client.
  unfold webhook_except, __init__, getattr, format, mbind, eff_bind, bind, history.
  rewrite hasattr_text, Htext. cbn. unfold call. cbn.
  rewrite <- !app_assoc in *. cbn [app] in *. rewrite H1. cbn.
  rewrite <- !app_assoc. cbn [app]. rewrite H2. reflexivity.
Qed.

Lemma webhook_after_a_failure s send s1 e s2 :
  init_ s = Returned send s1 →
  webhook_try_ s1 = Raised e s2 →
  isinstance_Exception e = true →
  webhook_ s
  = match webhook_except_ e s2 with
    | Returned _ s3 => Returned "resposta" s3
    | Raised e' s3 => Raised e' s3
    end.
Proof.
  intros Hinit Htry He.
  unfold webhook, mbind, eff_bind, bind. rewrite Hinit.
  unfold try_except. rewrite Htry. cbn [List.find fst snd]. rewrite He. cbn [snd].
  now destruct (webhook_except_ e s2).
Qed.

(** X14.  Whenever the [try] of [webhook] raises an error that
    [except Exception] catches, [webhook] itself ends with an exception
    and sends no apology: the clause asks the sender for a method [text]
    that [SendSandeco] does not have.  When the error renders and a sender
    can be built, the exception that leaves [webhook] is the
    [AttributeError] of that lookup. *)
Theorem webhook_raises_whenever_its_try_fails s send s1 e s2 :
  init_ s = Returned send s1 →
  webhook_try_ s1 = Raised e s2 →
  isinstance_Exception e = true →
  (∃ e' evs,
     webhook_ s = Raised e' (extend s2 evs)
     ∧ Forall (λ ev, is_send ev = false ∧ is_pipeline ev = false) evs)
  ∧ ∀ text,
      exc_str e = StrReturns text →
      let h := trace s2 ++ [Print ("Error occurred: " +:+ text); LoadDotenv] in
      let client := NewEvolutionClient (getenv h "EVO_BASE_URL") (getenv h "EVO_API_TOKEN") in
      fails h = None →
      fails (h ++ [client]) = None →
      webhook_ s
      = Raised (AttributeError "text")
          (extend s2 [Print ("Error occurred: " +:+ text); LoadDotenv; client]).
Proof.
  intros Hinit Htry He.
  rewrite (webhook_after_a_failure _ _ _ _ _ Hinit Htry He). split.
  - destruct (webhook_except_raises e s2) as (e' & evs & -> & Hevs). now exists e', evs.
  - intros text Htext h client H1 H2.
    now rewrite (webhook_except_AttributeError e s2 text Htext H1 H2).
Qed.

(** X15.  A message whose [phone] is not the authorised number is
    dropped: when the sender is built and the message is read, [webhook]
    returns its fixed answer and does nothing else; no step of the
    pipeline runs and nothing is sent. *)
Theorem webhook_ignores_other_senders s send s1 data s2 m s3 :
  init_ s = Returned send s1 →
  call fails returns GetJson s1 = Returned data s2 →
  call fails returns (NewMessage data) s2 = Returned m s3 →
  py_eq (phone m) (PyStr authorised_phone) = false →
  webhook_ s
  = Returned "resposta"
      {| trace := trace s ++ [LoadDotenv;
                              NewEvolutionClient (evo_base_url send) (evo_api_token send);
                              GetJson; NewMessage data];
         msg := Some m |}.
Proof.
  intros Hinit Hjson Hmsg Hphone.
  unfold webhook, mbind, eff_bind, bind. rewrite Hinit.
  unfold try_except, webhook_try, mbind, eff_bind, bind. rewrite Hjson, Hmsg.
  unfold set_msg. rewrite Hphone. cbn.
  rewrite (call_Returned _ _ _ _ Hmsg), (call_Returned _ _ _ _ Hjson),
    (init_Returned _ _ _ Hinit).
  cbn. now rewrite <- !app_assoc.
Qed.

(** X16.  A message from the authorised number that is neither a text
    nor an audio leaves the local variable [text] unbound: the crew is
    built but never run, nothing is synthesized and nothing is sent, and
    [webhook] ends with an exception. *)
Theorem webhook_fails_on_other_message_types s send s1 data s2 m s3 :
  init_ s = Returned send s1 →
  call fails returns GetJson s1 = Returned data s2 →
  call fails returns (NewMessage data) s2 = Returned m s3 →
  py_eq (phone m) (PyStr authorised_phone) = true →
  py_eq (message_type m) TYPE_TEXT = false →
  py_eq (message_type m) TYPE_AUDIO = false →
  ∃ e' evs,
    webhook_ s
    = Raised e' (extend {| trace := trace s3; msg := Some m |} (NewFluxoAudio :: evs))
    ∧ Forall (λ ev, is_send ev = false ∧ is_pipeline ev = false) evs.
Proof.
  intros Hinit Hjson Hmsg Hphone Htext Haudio.
  pose (s4 := extend {| trace := trace s3; msg := Some m |} [NewFluxoAudio]).
  assert (Htry : ∃ e, webhook_try_ s1 = Raised e s4
                      ∧ (isinstance_Exception e = false
                         ∨ isinstance_Exception e = true)).
  { unfold webhook_try, mbind, eff_bind, bind. rewrite Hjson, Hmsg.
    unfold set_msg. rewrite Hphone, Htext, Haudio. cbn. unfold call. cbn.
    fold s4. destruct (fails _) as [e|].
    - exists e. split; [reflexivity|]. destruct (isinstance_Exception e); auto.
    - exists (UnboundLocalError "text"). split; [reflexivity|]. now right. }
  destruct Htry as (e & Htry & [He|He]).
  - exists e, []. split; [|constructor].
    unfold webhook, mbind, eff_bind, bind. rewrite Hinit.
    unfold try_except. rewrite Htry. cbn [List.find fst snd]. now rewrite He.
  - rewrite (webhook_after_a_failure _ _ _ _ _ Hinit Htry He).
    destruct (webhook_except_raises e s4) as (e' & evs & -> & Hevs).
    exists e', evs. split; [|exact Hevs].
    unfold s4. now rewrite extend_twice.
Qed.

End WebhookProperties.

(** ** The sender and the webhook on sample worlds *)

Section AppOnSamples.
Import Py Eff App.

Lemma media_methods_check_the_file_first_witness :
  Forall (λ method : eff state pyobj,
            method initial = Raised (FileNotFoundError "relatorio.pdf") initial)
    [PDF (λ _, None) (λ _, PyNone) (λ _ _, false) sample_self
       (PyStr "5511999999999") "relatorio.pdf" (PyStr "");
     audio (λ _, None) (λ _, PyNone) (λ _ _, false) sample_self
       (PyStr "5511999999999") "relatorio.pdf";
     image (λ _, None) (λ _, PyNone) (λ _ _, false) sample_self
       (PyStr "5511999999999") "relatorio.pdf" (PyStr "");
     video (λ _, None) (λ _, PyNone) (λ _ _, false) sample_self
       (PyStr "5511999999999") "relatorio.pdf" (PyStr "");
     document (λ _, None) (λ _, PyNone) (λ _ _, false) sample_self
       (PyStr "5511999999999") "relatorio.pdf" (PyStr "")]
  ∧ trace (final (audioBase64 (λ _, None) (λ _, PyNone) sample_self
                    (PyStr "5511999999999") "relatorio.pdf" initial))
    = [SendWhatsappAudio (Some "instancia")
         [("number", PyStr "5511999999999"); ("mediatype", PyStr "audio");
          ("mimetype", PyStr "audio/mpeg"); ("caption", PyStr "")]
         (Some "token-da-instancia") "relatorio.pdf"].
Proof.
  exact (media_methods_check_the_file_first (λ _, None) (λ _, PyNone) (λ _ _, false)
           sample_self (PyStr "5511999999999") (PyStr "") "relatorio.pdf" initial
           eq_refl).
Defined.

(** A request without a body: the apology is not sent, the handler
    fails. *)
Lemma webhook_raises_whenever_its_try_fails_witness :
  webhook no_json (λ _, PyNone) (λ _ _, true) (λ _ _, None)
    (λ _, PyStr authorised_phone) (λ _, PyStr "conversation")
    (PyStr "conversation") (PyStr "audioMessage") sample_py_eq initial
  = Raised (AttributeError "text")
      {| trace := [LoadDotenv; NewEvolutionClient None None; GetJson;
                   Print "Error occurred: 400 Bad Request";
                   LoadDotenv; NewEvolutionClient None None];
         msg := None |}.
Proof.
  exact (proj2 (webhook_raises_whenever_its_try_fails
                  no_json (λ _, PyNone) (λ _ _, true) (λ _ _, None)
                  (λ _, PyStr authorised_phone) (λ _, PyStr "conversation")
                  (PyStr "conversation") (PyStr "audioMessage") sample_py_eq
                  initial _ _ BadRequest _ eq_refl eq_refl eq_refl)
           "400 Bad Request" eq_refl eq_refl eq_refl).
Defined.

Lemma webhook_ignores_other_senders_witness :
  webhook (λ _, None) (λ _, PyNone) (λ _ _, true) (λ _ _, None)
    (λ _, PyStr "5511999999999") (λ _, PyStr "conversation")
    (PyStr "conversation") (PyStr "audioMessage") sample_py_eq initial
  = Returned "resposta"
      {| trace := [LoadDotenv; NewEvolutionClient None None; GetJson; NewMessage PyNone];
         msg := Some PyNone |}.
Proof.
  exact (webhook_ignores_other_senders
           (λ _, None) (λ _, PyNone) (λ _ _, true) (λ _ _, None)
           (λ _, PyStr "5511999999999") (λ _, PyStr "conversation")
           (PyStr "conversation") (PyStr "audioMessage") sample_py_eq
           initial _ _ _ _ _ _ eq_refl eq_refl eq_refl eq_refl).
Defined.

(** An image from the authorised number. *)
Lemma webhook_fails_on_other_message_types_witness :
  ∃ e' evs,
    webhook (λ _, None) (λ _, PyNone) (λ _ _, true) (λ _ _, None)
      (λ _, PyStr authorised_phone) (λ _, PyStr "imageMessage")
      (PyStr "conversation") (PyStr "audioMessage") sample_py_eq initial
    = Raised e'
        {| trace := [LoadDotenv; NewEvolutionClient None None; GetJson; NewMessage PyNone]
                    ++ NewFluxoAudio :: evs;
           msg := Some PyNone |}
    ∧ Forall (λ ev, is_send ev = false ∧ is_pipeline ev = false) evs.
Proof.
  exact (webhook_fails_on_other_message_types
           (λ _, None) (λ _, PyNone) (λ _ _, true) (λ _ _, None)
           (λ _, PyStr authorised_phone) (λ _, PyStr "imageMessage")
           (PyStr "conversation") (PyStr "audioMessage") sample_py_eq
           initial _ _ _ _ _ _ eq_refl eq_refl eq_refl eq_refl eq_refl eq_refl).
Defined.

End AppOnSamples.
